(** * ExecuteActionWebsocketsRequest: request construction, command
      resolution and execution

    A shallow embedding of
    [python/tk_desktop2/websockets/requests/toolkit_actions/execute_action.py].

    The payload arrives from javascript as decoded JSON, so it is modelled as
    a Python value; the payload itself is a [dict] with string keys.  The
    collaborators (the Shotgun connection, the external commands, the
    websockets reply channel, the worker thread) are observed through a trace
    of events that every operation extends in program order. *)

From stdpp Require Import base option list strings gmap.

Set Warnings "-register-all".

Open Scope string_scope.
Open Scope list_scope.
Open Scope Z_scope.

(** ** Python values *)

(** JSON-decoded values.  Numbers are restricted to integers. *)
Inductive pyval : Type :=
| PNone
| PBool (b : bool)
| PInt (z : Z)
| PStr (s : string)
| PList (l : list pyval)
| PDict (d : gmap string pyval).

(** ** Exceptions *)

(** [ValueError] and [RuntimeError] are the two exceptions this module raises
    itself, with the message it builds.  The next three are raised by the
    interpreter on a failed subscript.  [Failure] is any other [Exception]
    raised by a collaborator, with its [str()] description.  [BaseFailure] is
    an exception raised by a collaborator that is no [Exception]:
    [SystemExit], [KeyboardInterrupt] or [GeneratorExit]. *)
Inductive exn : Type :=
| ValueError (msg : string)
| RuntimeError (msg : string)
| IndexError
| KeyError (key : pyval)
| TypeError
| Failure (description : string)
| BaseFailure (description : string).

Inductive result (A : Type) : Type :=
| Ok (a : A)
| Err (e : exn).
Arguments Ok {A} a.
Arguments Err {A} e.

(** ** Collaborators *)

(** What an external command call comes back with: a return value, an
    [Exception] whose [str()] is [description], or an exception that is no
    [Exception] ([SystemExit], [KeyboardInterrupt], [GeneratorExit]). *)
Inductive outcome : Type :=
| Returned (output : pyval)
| Raised (description : string)
| RaisedBase (description : string).

(** [ExternalCommand], as far as this module touches it. *)
Record command : Type := {
  system_name : string;
  support_shotgun_multiple_selection : bool;
  execute : bool -> outcome;
  execute_on_multiple_entities : bool -> pyval -> outcome
}.

(** [ExternalConfiguration]: only its name is read.  A zero config setup has
    no record in Shotgun and hence no name. *)
Record configuration : Type := {
  pipeline_configuration_name : option string
}.

(** One entry of [associated_commands]. *)
Record catalog : Type := {
  cat_configuration : configuration;
  cat_commands : option (list command);
  cat_error : option string
}.

(** [connection.shotgun]: its [find_one(entity_type, filters, fields)]. *)
Record connection : Type := {
  find_one : pyval -> pyval -> pyval -> result pyval
}.

(** Modelled from the spec: [WebsocketsRequest._reply_with_status] belongs to
    the base class; the reply is the status object
    [{status: 0|1, output?: any, error?: string}] handed to the transport's
    reply channel, with [status] defaulting to 0. *)
Record reply : Type := {
  status : Z;
  output : option pyval;
  error : option string
}.

(** ** The request object *)

Record request : Type := {
  _resolved_command : option command;
  _command_name : pyval;
  _command_title : pyval;
  _config_name : pyval;
  _entity_type : pyval;
  _entity_id : pyval;
  _entity_ids : pyval;
  _project_id : pyval
}.

(** ** Observable events *)

Inductive event : Type :=
| EvFindOne (entity_type filters fields : pyval)
| EvExecute (cmd : command) (pre_cache : bool)
| EvExecuteOnMultipleEntities (cmd : command) (pre_cache : bool)
    (entity_ids : pyval)
| EvReply (r : reply)
| EvThreadStart (daemon : bool) (target : request).

Definition trace : Type := list event.

(** ** A state-and-exception monad over the trace *)

Definition M (A : Type) : Type := trace -> result A * trace.

Definition ret {A} (a : A) : M A := fun tr => (Ok a, tr).

Definition raise {A} (e : exn) : M A := fun tr => (Err e, tr).

Definition bind {A B} (m : M A) (k : A -> M B) : M B :=
  fun tr =>
    match m tr with
    | (Ok a, tr') => k a tr'
    | (Err e, tr') => (Err e, tr')
    end.

Definition lift {A} (r : result A) : M A := fun tr => (r, tr).

Definition emit (e : event) : M unit := fun tr => (Ok tt, tr ++ [e]).

Declare Scope py_scope.
Delimit Scope py_scope with py.
Notation "x <- m ;; k" := (bind m (fun x => k))
  (at level 100, m at next level, right associativity) : py_scope.
Notation "m ;;; k" := (bind m (fun _ => k))
  (at level 100, right associativity) : py_scope.
Open Scope py_scope.

(** ** Subscripts and comparisons *)

(** [v[0]] *)
Definition getitem_0 (v : pyval) : result pyval :=
  match v with
  | PList (x :: _) => Ok x
  | PList [] => Err IndexError
  | PStr (String c _) => Ok (PStr (String c ""))
  | PStr "" => Err IndexError
  | PDict _ => Err (KeyError (PInt 0))
  | PNone | PBool _ | PInt _ => Err TypeError
  end.

(** [v[k]] for a string key [k] *)
Definition getitem_str (v : pyval) (k : string) : result pyval :=
  match v with
  | PDict d =>
      match d !! k with
      | Some x => Ok x
      | None => Err (KeyError (PStr k))
      end
  | _ => Err TypeError
  end.

(** [parameters[k]] on the payload dict *)
Definition param (parameters : gmap string pyval) (k : string) : result pyval :=
  match parameters !! k with
  | Some x => Ok x
  | None => Err (KeyError (PStr k))
  end.

(** [isinstance(v, dict)] *)
Definition is_dict (v : pyval) : bool :=
  match v with PDict _ => true | _ => false end.

(** [v is None] *)
Definition is_none (v : pyval) : bool :=
  match v with PNone => true | _ => false end.

(** [s == v] for a string [s] *)
Definition str_eq (s : string) (v : pyval) : bool :=
  match v with PStr t => String.eqb s t | _ => false end.

(** [[e["id"] for e in l]] *)
Fixpoint ids_of (l : list pyval) : result (list pyval) :=
  match l with
  | [] => Ok []
  | e :: l' =>
      match getitem_str e "id" with
      | Err x => Err x
      | Ok i =>
          match ids_of l' with
          | Err x => Err x
          | Ok rest => Ok (i :: rest)
          end
      end
  end.

(** Iterating [v] in a list comprehension that subscripts every item with
    ["id"]. *)
Definition comprehension_ids (v : pyval) : result pyval :=
  match v with
  | PList l =>
      match ids_of l with
      | Ok l' => Ok (PList l')
      | Err x => Err x
      end
  | PStr "" => Ok (PList [])
  | PStr _ => Err TypeError
  | PDict d => if decide (d = ∅) then Ok (PList []) else Err TypeError
  | PNone | PBool _ | PInt _ => Err TypeError
  end.

(** ** [__init__] *)

Definition required_params : list string :=
  ["name"; "title"; "pc"; "entity_ids"; "entity_type"; "project_id"].

Definition missing_parameter (self_str required_param : string) : string :=
  self_str +:+ ": Missing parameter '" +:+ required_param +:+ "' in payload.".

(** The loop of lines 80-82. *)
Fixpoint check_required (self_str : string) (parameters : gmap string pyval)
    (ps : list string) : result unit :=
  match ps with
  | [] => Ok tt
  | required_param :: ps' =>
      match parameters !! required_param with
      | None => Err (ValueError (missing_parameter self_str required_param))
      | Some _ => check_required self_str parameters ps'
      end
  end.

(** Lines 90-107: the primary entity id and the list of entity ids. *)
Definition entity_fields (parameters : gmap string pyval)
    : result (pyval * pyval) :=
  match param parameters "entity_ids" with
  | Err x => Err x
  | Ok ids =>
      match getitem_0 ids with
      | Err x => Err x
      | Ok first_entity_object =>
          if is_dict first_entity_object then
            match getitem_str first_entity_object "id" with
            | Err x => Err x
            | Ok i =>
                match comprehension_ids ids with
                | Err x => Err x
                | Ok all_ids => Ok (i, all_ids)
                end
            end
          else Ok (first_entity_object, ids)
      end
  end.

(** Lines 109-121.  [parameters.get("project_id")] is [None] for an absent
    key as well as for a null value. *)
Definition resolve_project_id (conn : connection)
    (parameters : gmap string pyval) (entity_type entity_id : pyval)
    : M pyval :=
  if is_none (default PNone (parameters !! "project_id")) then
    let filters := PList [PList [PStr "id"; PStr "is"; entity_id]] in
    let fields := PList [PStr "project"] in
    emit (EvFindOne entity_type filters fields) ;;;
    sg_data <- lift (find_one conn entity_type filters fields) ;;
    project <- lift (getitem_str sg_data "project") ;;
    lift (getitem_str project "id")
  else
    lift (param parameters "project_id").

(** The constructor.  [self_str] is [str(self)], which the base class
    defines; the base class constructor only files [connection] and [id]. *)
Definition __init__ (self_str : string) (conn : connection)
    (parameters : gmap string pyval) : M request :=
  lift (check_required self_str parameters required_params) ;;;
  command_name <- lift (param parameters "name") ;;
  command_title <- lift (param parameters "title") ;;
  config_name <- lift (param parameters "pc") ;;
  entity_type <- lift (param parameters "entity_type") ;;
  ef <- lift (entity_fields parameters) ;;
  project_id <- resolve_project_id conn parameters entity_type ef.1 ;;
  ret {| _resolved_command := None;
         _command_name := command_name;
         _command_title := command_title;
         _config_name := config_name;
         _entity_type := entity_type;
         _entity_id := ef.1;
         _entity_ids := ef.2;
         _project_id := project_id |}.

(** ** [execute_with_context] *)

(** [config["configuration"].pipeline_configuration_name or "Primary"]: a
    missing name and an empty name are both falsy. *)
Definition config_name_of (config : catalog) : string :=
  match pipeline_configuration_name (cat_configuration config) with
  | Some (String c s) => String c s
  | Some "" | None => "Primary"
  end.

(** [config["commands"] or []] *)
Definition commands_of (config : catalog) : list command :=
  default [] (cat_commands config).

Definition set_resolved_command (self : request) (cmd : command) : request :=
  {| _resolved_command := Some cmd;
     _command_name := _command_name self;
     _command_title := _command_title self;
     _config_name := _config_name self;
     _entity_type := _entity_type self;
     _entity_id := _entity_id self;
     _entity_ids := _entity_ids self;
     _project_id := _project_id self |}.

(** The body of the outer loop, lines 224-230: the inner loop stops at the
    first command with the requested name. *)
Definition scan_config (self : request) (config : catalog) : request :=
  if str_eq (config_name_of config) (_config_name self) then
    match List.find (fun cmd => str_eq (system_name cmd) (_command_name self))
            (commands_of config) with
    | Some cmd => set_resolved_command self cmd
    | None => self
    end
  else self.

Definition configuration_mismatch (self_str : string) : string :=
  self_str +:+ ": Configuration mismatch!".

(** Lines 219-240.  A command object is truthy.  The worker thread is a
    daemon whose target is [self._execute]; starting it is the last thing
    that happens. *)
Definition execute_with_context (self_str : string) (self : request)
    (associated_commands : list catalog) : M request :=
  let self' := fold_left scan_config associated_commands self in
  match _resolved_command self' with
  | None => raise (RuntimeError (configuration_mismatch self_str))
  | Some _ => emit (EvThreadStart true self') ;;; ret self'
  end.

(** ** [_execute] *)

Definition _reply_with_status (st : Z) (out : option pyval)
    (err : option string) : M unit :=
  emit (EvReply {| status := st; output := out; error := err |}).

(** [needle in hay] on strings *)
Fixpoint contains (needle hay : string) : bool :=
  String.prefix needle hay ||
  match hay with
  | "" => false
  | String _ hay' => contains needle hay'
  end.

Definition legacy_signature : string :=
  "Looks like you are trying to run a Sgtk App that uses a QT based UI".

Definition upgrade_message : string :=
  "The version of the Toolkit Shotgun Engine (tk-shotgun) you " +:+
  "are running does not support PySide2. Please upgrade your " +:+
  "configuration to use version v0.8.0 or above of the engine.".

(** Lines 156-162: the call made inside [try], with what it comes back with.
    Reading the flag off an unset command is an [AttributeError]. *)
Definition call_command (self : request) : trace -> outcome * trace :=
  fun tr =>
    match _resolved_command self with
    | None =>
        (Raised ("'NoneType' object has no attribute " +:+
                 "'support_shotgun_multiple_selection'"), tr)
    | Some cmd =>
        if support_shotgun_multiple_selection cmd then
          (execute_on_multiple_entities cmd true (_entity_ids self),
           tr ++ [EvExecuteOnMultipleEntities cmd true (_entity_ids self)])
        else
          (execute cmd true, tr ++ [EvExecute cmd true])
    end.

(** The thread payload, lines 155-193.  The reply of line 163 sits inside
    [try] as well; the reply channel itself does not raise.  The handler of
    line 164 is [except Exception]: an exception that is no [Exception]
    passes through it, and nothing is replied. *)
Definition _execute (self : request) : M unit :=
  fun tr =>
    match call_command self tr with
    | (Returned out, tr') => _reply_with_status 0 (Some out) None tr'
    | (Raised description, tr') =>
        if contains legacy_signature description then
          _reply_with_status 1 None (Some upgrade_message) tr'
        else
          _reply_with_status 1 None (Some description) tr'
    | (RaisedBase description, tr') => (Err (BaseFailure description), tr')
    end.

(** ** Vocabulary of the properties *)

(** A catalog entry matches a request when its effective scope name equals
    the request's configuration name and it holds a command with the
    requested system name. *)
Definition command_matches (self : request) (cmd : command) : bool :=
  str_eq (system_name cmd) (_command_name self).

Definition entry_matches (self : request) (config : catalog) : bool :=
  str_eq (config_name_of config) (_config_name self) &&
  existsb (command_matches self) (commands_of config).

(** Scanning never touches the fields resolution compares against. *)
Definition same_target (a b : request) : Prop :=
  _command_name a = _command_name b /\ _command_title a = _command_title b /\
  _config_name a = _config_name b /\ _entity_type a = _entity_type b /\
  _entity_id a = _entity_id b /\ _entity_ids a = _entity_ids b /\
  _project_id a = _project_id b.

(** The payload passes validation. *)
Definition all_required (parameters : gmap string pyval) : Prop :=
  forall k, In k required_params -> is_Some (parameters !! k).

(** The lookups recorded in a trace. *)
Definition lookup_calls (tr : trace) : list (pyval * pyval * pyval) :=
  omap (fun e => match e with
                 | EvFindOne et filters fields => Some (et, filters, fields)
                 | _ => None
                 end) tr.

(** ** Sample inputs *)

(** The two payloads of the class docstring. *)
Definition spreadsheet_payload : gmap string pyval :=
  list_to_map
    [("entity_ids", PList [PInt 6947]);
     ("entity_type", PStr "Version");
     ("name", PStr "Jump to Screening Room in RV");
     ("pc", PStr "Primary");
     ("pc_root_path", PStr "");
     ("project_id", PInt 87);
     ("title", PStr "Jump to Screening Room in RV")].

Definition task_entity : gmap string pyval :=
  list_to_map [("id", PInt 5757); ("type", PStr "Task")].

Definition my_tasks_payload : gmap string pyval :=
  list_to_map
    [("entity_ids", PList [PDict task_entity]);
     ("entity_type", PStr "Task");
     ("name", PStr "nuke_9.0v6");
     ("pc", PStr "Primary");
     ("pc_root_path", PStr "");
     ("project_id", PNone);
     ("title", PStr "Nuke 9.0v6")].

(** A Shotgun site on which every entity belongs to project 87. *)
Definition site_87 : connection :=
  {| find_one := fun _ _ _ =>
       Ok (PDict {[ "project" := PDict {[ "id" := PInt 87 ]} ]}) |}.

Definition nuke (multi : bool) (result : outcome) : command :=
  {| system_name := "nuke_9.0v6";
     support_shotgun_multiple_selection := multi;
     execute := fun _ => result;
     execute_on_multiple_entities := fun _ _ => result |}.

Definition catalog_of (name : option string) (cmds : option (list command))
    : catalog :=
  {| cat_configuration := {| pipeline_configuration_name := name |};
     cat_commands := cmds;
     cat_error := None |}.

Definition my_tasks_request : request :=
  {| _resolved_command := None;
     _command_name := PStr "nuke_9.0v6";
     _command_title := PStr "Nuke 9.0v6";
     _config_name := PStr "Primary";
     _entity_type := PStr "Task";
     _entity_id := PInt 5757;
     _entity_ids := PList [PInt 5757];
     _project_id := PInt 87 |}.


(** ** The read-only properties of the request, lines 123-149 *)

Definition requires_toolkit (self : request) : bool := true.

Definition project_id (self : request) : pyval := _project_id self.

Definition entity_type (self : request) : pyval := _entity_type self.

Definition entity_id (self : request) : pyval := _entity_id self.

(** A site whose [find_one] answers every query with [answer]. *)
Definition site_answering (answer : result pyval) : connection :=
  {| find_one := fun _ _ _ => answer |}.

(** The filters and fields of the one query this module makes. *)
Definition id_is (eid : pyval) : pyval :=
  PList [PList [PStr "id"; PStr "is"; eid]].

Definition project_field : pyval := PList [PStr "project"].

(** The project id [pid] is there for the constructor to take: either the
    payload carries it, or the payload carries null and the site knows the
    entity [eid] of type [et] with its project. *)
Definition project_resolves (conn : connection)
    (parameters : gmap string pyval) (et eid pid : pyval) : Prop :=
  (parameters !! "project_id" = Some pid /\ pid <> PNone) \/
  (parameters !! "project_id" = Some PNone /\
   exists sg project,
     find_one conn et (id_is eid) project_field = Ok (PDict sg) /\
     sg !! "project" = Some (PDict project) /\
     project !! "id" = Some pid).

(** What [_execute] does with each outcome of the call it made. *)
Definition answer_to (o : outcome) : result unit * list event :=
  match o with
  | Returned out =>
      (Ok tt, [EvReply {| status := 0; output := Some out; error := None |}])
  | Raised d =>
      (Ok tt,
       [EvReply {| status := 1; output := None;
                   error := Some (if contains legacy_signature d
                                  then upgrade_message else d) |}])
  | RaisedBase d => (Err (BaseFailure d), [])
  end.

(** * Properties *)

(** ** Strings *)






(** ** Resolution *)

Lemma find_first_split {A} (P : A -> bool) (l : list A) :
  existsb P l = true ->
  exists before x after,
    l = before ++ x :: after /\ P x = true /\
    Forall (fun y => P y = false) before /\ List.find P l = Some x.
Proof.
  induction l as [|a l IH]; simpl; [done|]. intros H.
  destruct (P a) eqn:Ea.
  - by exists [], a, l.
  - destruct (IH H) as (before & x & after & -> & Hx & Hb & Hf).
    exists (a :: before), x, after. repeat split; auto.
Qed.

Lemma find_none_existsb {A} (P : A -> bool) (l : list A) :
  existsb P l = false -> List.find P l = None.
Proof.
  induction l as [|a l IH]; simpl; [done|].
  destruct (P a); simpl; [done | exact IH].
Qed.

Lemma scan_config_nomatch (self : request) (config : catalog) :
  entry_matches self config = false -> scan_config self config = self.
Proof.
  unfold entry_matches, scan_config. intros H.
  destruct (str_eq _ (_config_name self)); [|done].
  simpl in H. fold (command_matches self). by rewrite find_none_existsb.
Qed.

Lemma scan_config_match (self : request) (config : catalog) :
  entry_matches self config = true ->
  exists before cmd after,
    commands_of config = before ++ cmd :: after /\
    command_matches self cmd = true /\
    Forall (fun c => command_matches self c = false) before /\
    scan_config self config = set_resolved_command self cmd.
Proof.
  unfold entry_matches, scan_config. intros H.
  apply andb_true_iff in H as [-> H].
  destruct (find_first_split _ _ H) as (before & cmd & after & E & Hc & Hb & Hf).
  exists before, cmd, after. fold (command_matches self). by rewrite Hf.
Qed.

Lemma same_target_refl (a : request) : same_target a a.
Proof. by repeat split. Qed.

Lemma same_target_set (a b : request) (cmd : command) :
  same_target a b -> set_resolved_command a cmd = set_resolved_command b cmd.
Proof.
  intros (?&?&?&?&?&?&?). unfold set_resolved_command. by f_equal.
Qed.

Lemma same_target_entry (a b : request) (config : catalog) :
  same_target a b -> entry_matches a config = entry_matches b config.
Proof.
  intros (Hn&_&Hc&_). unfold entry_matches, command_matches.
  by rewrite Hn, Hc.
Qed.

Lemma scan_config_target (self : request) (config : catalog) :
  same_target (scan_config self config) self.
Proof.
  unfold scan_config. destruct (str_eq _ _); [|apply same_target_refl].
  destruct (List.find _ _); [by repeat split | apply same_target_refl].
Qed.

Lemma scan_all_target (catalogs : list catalog) (self : request) :
  same_target (fold_left scan_config catalogs self) self.
Proof.
  revert self. induction catalogs as [|c cs IH]; intros self; simpl.
  - apply same_target_refl.
  - destruct (IH (scan_config self c)) as (?&?&?&?&?&?&?).
    destruct (scan_config_target self c) as (?&?&?&?&?&?&?).
    repeat split; congruence.
Qed.

Lemma scan_all_nomatch (catalogs : list catalog) (self : request) :
  Forall (fun c => entry_matches self c = false) catalogs ->
  fold_left scan_config catalogs self = self.
Proof.
  induction 1 as [|c cs Hc _ IH]; simpl; [done|].
  by rewrite scan_config_nomatch.
Qed.

(** The outer loop ends on the first matching command of the last matching
    catalog. *)
Lemma scan_all_last (self : request) (pre post : list catalog)
    (config : catalog) :
  entry_matches self config = true ->
  Forall (fun c => entry_matches self c = false) post ->
  exists before cmd after,
    commands_of config = before ++ cmd :: after /\
    command_matches self cmd = true /\
    Forall (fun c => command_matches self c = false) before /\
    fold_left scan_config (pre ++ config :: post) self =
      set_resolved_command self cmd.
Proof.
  intros Hm Hpost. rewrite fold_left_app. simpl.
  pose proof (scan_all_target pre self) as Ht.
  set (mid := fold_left scan_config pre self) in *.
  rewrite <- (same_target_entry _ _ config Ht) in Hm.
  destruct (scan_config_match _ _ Hm) as (before & cmd & after & E & Hc & Hb & Hs).
  exists before, cmd, after.
  assert (Hcm : forall c, command_matches mid c = command_matches self c).
  { intros c. unfold command_matches. destruct Ht as (-> & _). done. }
  split; [done|]. split; [by rewrite <- Hcm|]. split.
  { eapply Forall_impl; [exact Hb|]. simpl. intros c. by rewrite Hcm. }
  rewrite Hs, scan_all_nomatch.
  - by apply same_target_set.
  - eapply Forall_impl; [exact Hpost|]. simpl. intros c <-.
    apply same_target_entry. destruct Ht as (?&?&?&?&?&?&?). by repeat split.
Qed.

Lemma filter_nil_Forall {A} (P : A -> bool) (l : list A) :
  List.filter P l = [] -> Forall (fun y => P y = false) l.
Proof.
  induction l as [|a l IH]; simpl; [constructor|].
  destruct (P a) eqn:Ea; [done|]. intros H. constructor; auto.
Qed.

Lemma last_match_split {A} (P : A -> bool) (l : list A) :
  (0 < length (List.filter P l))%nat ->
  exists pre x post,
    l = pre ++ x :: post /\ P x = true /\
    Forall (fun y => P y = false) post /\
    length (List.filter P l) = S (length (List.filter P pre)).
Proof.
  induction l as [|a l IH]; simpl; [lia|]. intros H.
  destruct (List.filter P l) as [|b fl] eqn:Efl.
  - destruct (P a) eqn:Ea; simpl in H; [|lia].
    exists [], a, l. split; [done|]. split; [done|].
    split; [by apply filter_nil_Forall | done].
  - destruct IH as (pre & x & post & -> & Hx & Hpost & Hlen); [simpl; lia|].
    exists (a :: pre), x, post. split; [done|]. split; [done|].
    split; [done|]. simpl in *. destruct (P a); simpl; lia.
Qed.

Lemma filter_nonempty_Exists {A} (P : A -> bool) (l : list A) :
  (0 < length (List.filter P l))%nat -> Exists (fun x => P x = true) l.
Proof.
  induction l as [|a l IH]; simpl; [lia|].
  destruct (P a) eqn:Ea; [by left | right; auto].
Qed.

(** ** Construction *)

Lemma check_required_present (self_str : string)
    (parameters : gmap string pyval) (ps : list string) :
  Forall (fun k => is_Some (parameters !! k)) ps ->
  check_required self_str parameters ps = Ok tt.
Proof.
  induction 1 as [|k ps [v Hv] _ IH]; simpl; [done|]. by rewrite Hv.
Qed.

(** The loop stops at the first required key that is missing. *)
Lemma check_required_missing (self_str : string)
    (parameters : gmap string pyval) (ps : list string) :
  Exists (fun k => parameters !! k = None) ps ->
  exists before k after,
    ps = before ++ k :: after /\
    Forall (fun k' => is_Some (parameters !! k')) before /\
    parameters !! k = None /\
    check_required self_str parameters ps =
      Err (ValueError (missing_parameter self_str k)).
Proof.
  induction ps as [|p ps IH]; intros H; [by inversion H|].
  simpl. destruct (parameters !! p) as [v|] eqn:Ep.
  - destruct IH as (before & k & after & -> & Hb & Hk & Hc).
    { inversion H; subst; [congruence | done]. }
    exists (p :: before), k, after. repeat split; auto.
  - exists [], p, ps. repeat split; auto.
Qed.

Lemma init_rejected (self_str : string) (conn : connection)
    (parameters : gmap string pyval) (tr : trace) (e : exn) :
  check_required self_str parameters required_params = Err e ->
  __init__ self_str conn parameters tr = (Err e, tr).
Proof. intros H. unfold __init__, bind, lift. by rewrite H. Qed.

Lemma all_required_check (self_str : string)
    (parameters : gmap string pyval) :
  all_required parameters ->
  check_required self_str parameters required_params = Ok tt.
Proof.
  intros H. apply check_required_present, Forall_forall.
  intros k Hk. apply H. by apply list_elem_of_In.
Qed.

(** Settles a goal about every key [k] of a literal list, given
    [Hk : In k [...]], by going through the keys one at a time. *)
Ltac each_key Hk :=
  simpl in Hk; repeat (destruct Hk as [<-|Hk]; [eauto|]); destruct Hk.

(** Past validation the constructor reads the four plain fields, normalises
    the entity reference and resolves the project id, in that order. *)
Lemma init_accepted (self_str : string) (conn : connection)
    (parameters : gmap string pyval) (tr : trace) (n t c et : pyval) :
  all_required parameters ->
  parameters !! "name" = Some n -> parameters !! "title" = Some t ->
  parameters !! "pc" = Some c -> parameters !! "entity_type" = Some et ->
  __init__ self_str conn parameters tr =
    match entity_fields parameters with
    | Err e => (Err e, tr)
    | Ok ef =>
        match resolve_project_id conn parameters et ef.1 tr with
        | (Err e, tr') => (Err e, tr')
        | (Ok project_id, tr') =>
            (Ok {| _resolved_command := None;
                   _command_name := n;
                   _command_title := t;
                   _config_name := c;
                   _entity_type := et;
                   _entity_id := ef.1;
                   _entity_ids := ef.2;
                   _project_id := project_id |}, tr')
        end
    end.
Proof.
  intros Hall Hn Ht Hc Het. unfold __init__, bind, lift, ret, param.
  rewrite (all_required_check _ _ Hall), Hn, Ht, Hc, Het.
  destruct (entity_fields parameters); [|done].
  by destruct (resolve_project_id _ _ _ _ _) as [[?|?] ?].
Qed.

Lemma all_required_values (parameters : gmap string pyval) :
  all_required parameters ->
  exists n t c ids et pid,
    parameters !! "name" = Some n /\ parameters !! "title" = Some t /\
    parameters !! "pc" = Some c /\ parameters !! "entity_ids" = Some ids /\
    parameters !! "entity_type" = Some et /\
    parameters !! "project_id" = Some pid.
Proof.
  intros H.
  destruct (H "name") as [n ?]; [simpl; tauto|].
  destruct (H "title") as [t ?]; [simpl; tauto|].
  destruct (H "pc") as [c ?]; [simpl; tauto|].
  destruct (H "entity_ids") as [ids ?]; [simpl; tauto|].
  destruct (H "entity_type") as [et ?]; [simpl; tauto|].
  destruct (H "project_id") as [pid ?]; [simpl; tauto|].
  by exists n, t, c, ids, et, pid.
Qed.

(** A freshly constructed request has no resolved command. *)
Lemma init_unresolved (self_str : string) (conn : connection)
    (parameters : gmap string pyval) (tr tr' : trace) (self : request) :
  __init__ self_str conn parameters tr = (Ok self, tr') ->
  _resolved_command self = None.
Proof.
  unfold __init__, bind, lift, ret. intros H.
  repeat match type of H with
  | (match ?x with _ => _ end) = _ => destruct x; try discriminate
  | (let (_, _) := ?x in _) = _ => destruct x; try discriminate
  end.
  by inversion H.
Qed.

Lemma init_inv (self_str : string) (conn : connection)
    (parameters : gmap string pyval) (tr tr' : trace) (self : request) :
  __init__ self_str conn parameters tr = (Ok self, tr') ->
  exists ef,
    entity_fields parameters = Ok ef /\
    _entity_id self = ef.1 /\ _entity_ids self = ef.2.
Proof.
  unfold __init__, bind, lift, ret. intros H.
  destruct (check_required _ _ _); [|done].
  do 4 (destruct (param parameters _); [|done]).
  destruct (entity_fields parameters) as [ef|]; [|done].
  destruct (resolve_project_id _ _ _ _ _) as [[pid|] ?]; [|done].
  exists ef. by inversion H.
Qed.

Lemma ids_of_dicts (ds : list (gmap string pyval)) (ids : list Z) :
  Forall2 (fun d i => d !! "id" = Some (PInt i)) ds ids ->
  ids_of (PDict <$> ds) = Ok (PInt <$> ids).
Proof.
  induction 1 as [|d i ds ids Hd _ IH]; [done|].
  rewrite !fmap_cons. cbn [ids_of getitem_str]. by rewrite Hd, IH.
Qed.

Lemma entity_fields_ints (parameters : gmap string pyval) (z : Z)
    (zs : list Z) :
  parameters !! "entity_ids" = Some (PList (PInt <$> z :: zs)) ->
  entity_fields parameters = Ok (PInt z, PList (PInt <$> z :: zs)).
Proof. intros H. unfold entity_fields, param. by rewrite H. Qed.

Lemma entity_fields_dicts (parameters : gmap string pyval)
    (d : gmap string pyval) (ds : list (gmap string pyval)) (i : Z)
    (ids : list Z) :
  parameters !! "entity_ids" = Some (PList (PDict <$> d :: ds)) ->
  Forall2 (fun d i => d !! "id" = Some (PInt i)) (d :: ds) (i :: ids) ->
  entity_fields parameters = Ok (PInt i, PList (PInt <$> i :: ids)).
Proof.
  intros H HF. unfold entity_fields, param. rewrite H.
  pose proof (ids_of_dicts _ _ HF) as Hids.
  inversion HF as [|? ? ? ? Hd _]; subst.
  unfold comprehension_ids. rewrite Hids. rewrite !fmap_cons.
  cbn [getitem_0 is_dict getitem_str]. by rewrite Hd.
Qed.

Lemma resolve_project_id_null (conn : connection)
    (parameters : gmap string pyval) (et eid : pyval) (tr : trace) :
  parameters !! "project_id" = Some PNone ->
  let filters := PList [PList [PStr "id"; PStr "is"; eid]] in
  let fields := PList [PStr "project"] in
  resolve_project_id conn parameters et eid tr =
    (match find_one conn et filters fields with
     | Err e => Err e
     | Ok sg_data =>
         match getitem_str sg_data "project" with
         | Err e => Err e
         | Ok project => getitem_str project "id"
         end
     end, tr ++ [EvFindOne et filters fields]).
Proof.
  intros H. unfold resolve_project_id, bind, lift, emit. rewrite H. simpl.
  destruct (find_one conn _ _ _) as [sg|]; [|done].
  by destruct (getitem_str sg "project").
Qed.

Lemma resolve_project_id_given (conn : connection)
    (parameters : gmap string pyval) (et eid v : pyval) (tr : trace) :
  parameters !! "project_id" = Some v -> v <> PNone ->
  resolve_project_id conn parameters et eid tr = (Ok v, tr).
Proof.
  intros H Hv. unfold resolve_project_id, lift, param. rewrite H. simpl.
  by destruct v.
Qed.

(** With a project id in the payload, construction returns as soon as the
    entity reference normalises. *)
Lemma init_returns_given_project (self_str : string) (conn : connection)
    (parameters : gmap string pyval) (tr : trace) (eid eids v : pyval) :
  all_required parameters ->
  entity_fields parameters = Ok (eid, eids) ->
  parameters !! "project_id" = Some v -> v <> PNone ->
  exists self,
    __init__ self_str conn parameters tr = (Ok self, tr) /\
    _entity_id self = eid /\ _entity_ids self = eids /\
    _project_id self = v.
Proof.
  intros Hall Hef Hp Hv.
  destruct (all_required_values _ Hall)
    as (n & t & c & ids & et & pid & Hn & Ht & Hc & _ & Het & _).
  rewrite (init_accepted _ _ _ _ n t c et Hall Hn Ht Hc Het), Hef.
  cbn [fst snd]. rewrite (resolve_project_id_given _ _ _ _ _ _ Hp Hv).
  by eexists.
Qed.

Lemma resolve_fails_unresolved (self_str : string) (self : request)
    (catalogs : list catalog) (tr : trace) :
  _resolved_command self = None ->
  Forall (fun config => entry_matches self config = false) catalogs ->
  execute_with_context self_str self catalogs tr =
    (Err (RuntimeError (configuration_mismatch self_str)), tr).
Proof.
  intros Hn Hf. unfold execute_with_context.
  by rewrite (scan_all_nomatch _ _ Hf), Hn.
Qed.

Lemma resolve_binds (self_str : string) (self : request)
    (catalogs : list catalog) (cmd : command) (tr : trace) :
  fold_left scan_config catalogs self = set_resolved_command self cmd ->
  execute_with_context self_str self catalogs tr =
    (Ok (set_resolved_command self cmd),
     tr ++ [EvThreadStart true (set_resolved_command self cmd)]).
Proof. intros H. unfold execute_with_context. by rewrite H. Qed.

(** [_execute] is the call followed by the answer to its outcome. *)
Lemma execute_answers (self : request) (tr : trace) :
  _execute self tr =
    ((answer_to (call_command self tr).1).1,
     (call_command self tr).2 ++ (answer_to (call_command self tr).1).2).
Proof.
  unfold _execute, _reply_with_status, emit, answer_to.
  destruct (call_command self tr) as [[out|d|d] tr']; cbn [fst snd].
  - done.
  - by destruct (contains legacy_signature d).
  - by rewrite app_nil_r.
Qed.

Lemma call_command_resolved (self : request) (cmd : command) (tr : trace) :
  _resolved_command self = Some cmd ->
  call_command self tr =
    if support_shotgun_multiple_selection cmd
    then (execute_on_multiple_entities cmd true (_entity_ids self),
          tr ++ [EvExecuteOnMultipleEntities cmd true (_entity_ids self)])
    else (execute cmd true, tr ++ [EvExecute cmd true]).
Proof. intros H. unfold call_command. by rewrite H. Qed.

(** Construction returns as soon as validation passes, the entity reference
    normalises and the project id is there to take. *)
Lemma init_returns (self_str : string) (conn : connection)
    (parameters : gmap string pyval) (tr : trace) (et eid eids pid : pyval) :
  all_required parameters ->
  parameters !! "entity_type" = Some et ->
  entity_fields parameters = Ok (eid, eids) ->
  project_resolves conn parameters et eid pid ->
  exists self tr',
    __init__ self_str conn parameters tr = (Ok self, tr') /\
    _entity_id self = eid /\ _entity_ids self = eids /\
    _project_id self = pid.
Proof.
  intros Hall Het Hef Hres.
  destruct (all_required_values _ Hall)
    as (n & t & c & ids & et' & p & Hn & Ht & Hc & _ & Het' & _).
  assert (et' = et) as -> by congruence.
  rewrite (init_accepted _ _ _ _ n t c et Hall Hn Ht Hc Het), Hef.
  cbn [fst snd].
  destruct Hres as [[Hp Hv]|(Hp & sg & project & Hfind & Hsg & Hpr)].
  - rewrite (resolve_project_id_given _ _ _ _ _ _ Hp Hv). by eexists _, _.
  - rewrite (resolve_project_id_null _ _ _ _ _ Hp).
    unfold id_is, project_field in Hfind. rewrite Hfind.
    cbn [getitem_str]. rewrite Hsg. cbn [getitem_str]. rewrite Hpr.
    by eexists _, _.
Qed.

(** The example of the specification. *)
Example init_my_tasks :
  __init__ "request" site_87 my_tasks_payload [] =
    (Ok my_tasks_request,
     [EvFindOne (PStr "Task") (PList [PList [PStr "id"; PStr "is"; PInt 5757]])
        (PList [PStr "project"])]).
Proof. reflexivity. Qed.

Example init_spreadsheet :
  exists self,
    __init__ "request" site_87 spreadsheet_payload [] = (Ok self, []) /\
    _entity_id self = PInt 6947 /\ _entity_ids self = PList [PInt 6947] /\
    _project_id self = PInt 87.
Proof. eexists. split; [reflexivity|]. done. Qed.

(** A later catalog of the same scope overwrites an earlier match. *)
Example later_catalog_wins :
  let old := nuke false (Returned (PStr "old")) in
  let new := nuke true (Returned (PStr "new")) in
  (execute_with_context "request" my_tasks_request
     [catalog_of (Some "Primary") (Some [old]); catalog_of None (Some [new])]
     []).1 = Ok (set_resolved_command my_tasks_request new).
Proof. reflexivity. Qed.

(** ** The claims *)

(** C1 (as amended): for a payload that carries the other five required keys
    and whose entity reference normalises, the project lookup happens exactly
    when [project_id] is present with a null value: then exactly one
    [find_one] call is made, keyed by the entity type and the primary entity
    id, and the project id is the id of the project it returns; when
    [project_id] is present with any other value there is no lookup and the
    value is taken verbatim; when the key is absent the payload is rejected
    by validation and there is no lookup either. *)
Theorem C1_project_lookup (self_str : string) (conn : connection)
    (parameters : gmap string pyval) (tr : trace) (et eid eids : pyval) :
  (forall k, In k ["name"; "title"; "pc"; "entity_ids"; "entity_type"] ->
             is_Some (parameters !! k)) ->
  parameters !! "entity_type" = Some et ->
  entity_fields parameters = Ok (eid, eids) ->
  let filters := PList [PList [PStr "id"; PStr "is"; eid]] in
  let fields := PList [PStr "project"] in
  (parameters !! "project_id" = Some PNone ->
     (__init__ self_str conn parameters tr).2 =
       tr ++ [EvFindOne et filters fields] /\
     forall sg project p,
       find_one conn et filters fields = Ok (PDict sg) ->
       sg !! "project" = Some (PDict project) ->
       project !! "id" = Some p ->
       exists self,
         (__init__ self_str conn parameters tr).1 = Ok self /\
         _project_id self = p) /\
  (forall v, parameters !! "project_id" = Some v -> v <> PNone ->
     exists self,
       __init__ self_str conn parameters tr = (Ok self, tr) /\
       _project_id self = v) /\
  (parameters !! "project_id" = None ->
     __init__ self_str conn parameters tr =
       (Err (ValueError
               (self_str +:+ ": Missing parameter 'project_id' in payload.")),
        tr)).
Proof.
  intros Hfive Het Hef filters fields.
  destruct (Hfive "name") as [n Hn]; [simpl; tauto|].
  destruct (Hfive "title") as [t Ht]; [simpl; tauto|].
  destruct (Hfive "pc") as [c Hc]; [simpl; tauto|].
  destruct (Hfive "entity_ids") as [ids Hids]; [simpl; tauto|].
  split; [|split].
  - intros Hp.
    assert (Hall : all_required parameters).
    { intros k Hk. each_key Hk. }
    rewrite (init_accepted _ _ _ _ n t c et Hall Hn Ht Hc Het), Hef.
    cbn [fst snd].
    rewrite (resolve_project_id_null _ _ _ _ _ Hp). fold filters fields.
    split.
    + by destruct (match find_one conn et filters fields with
                   | Ok _ => _ | Err _ => _ end).
    + intros sg project p -> Hsg Hpr. cbn [getitem_str].
      rewrite Hsg. cbn [getitem_str]. rewrite Hpr. by eexists.
  - intros v Hp Hv.
    assert (Hall : all_required parameters).
    { intros k Hk. each_key Hk. }
    rewrite (init_accepted _ _ _ _ n t c et Hall Hn Ht Hc Het), Hef.
    cbn [fst snd].
    rewrite (resolve_project_id_given _ _ _ _ _ _ Hp Hv). by eexists.
  - intros Hp. apply init_rejected. unfold required_params.
    cbn [check_required]. by rewrite Hn, Ht, Hc, Hids, Het, Hp.
Qed.

Lemma C1_project_lookup_witness :
  (forall k, In k ["name"; "title"; "pc"; "entity_ids"; "entity_type"] ->
             is_Some (my_tasks_payload !! k)) /\
  (__init__ "request" site_87 my_tasks_payload []).2 =
    [EvFindOne (PStr "Task") (PList [PList [PStr "id"; PStr "is"; PInt 5757]])
       (PList [PStr "project"])] /\
  exists self,
    (__init__ "request" site_87 my_tasks_payload []).1 = Ok self /\
    _project_id self = PInt 87.
Proof.
  assert (Hfive : forall k,
            In k ["name"; "title"; "pc"; "entity_ids"; "entity_type"] ->
            is_Some (my_tasks_payload !! k)).
  { intros k Hk. each_key Hk. }
  split; [exact Hfive|].
  destruct (C1_project_lookup "request" site_87 my_tasks_payload []
              (PStr "Task") (PInt 5757) (PList [PInt 5757])
              Hfive eq_refl eq_refl) as [Hnull _].
  destruct (Hnull eq_refl) as [Htr Hpid].
  split; [exact Htr|].
  exact (Hpid _ _ (PInt 87) eq_refl eq_refl eq_refl).
Defined.

(** C1 as stated fails when [project_id] is absent: the payload is rejected
    and no lookup is made, where the claim has exactly one. *)
Lemma C1_absent_project_id_no_lookup :
  let parameters := delete "project_id" my_tasks_payload in
  parameters !! "project_id" = None /\
  __init__ "request" site_87 parameters [] =
    (Err (ValueError "request: Missing parameter 'project_id' in payload."),
     []) /\
  length (lookup_calls (__init__ "request" site_87 parameters []).2) <> 1%nat.
Proof. split; [reflexivity|]. split; [reflexivity|]. discriminate. Qed.

(** C2: when more than one catalog entry matches the request (its effective
    scope name equals the request's configuration name and it holds a command
    with the requested system name), resolution binds the first matching
    command of the last matching catalog: the outer loop keeps going after a
    match, so the later catalog overwrites the earlier match. *)
Theorem C2_last_matching_catalog_wins (self_str : string) (self : request)
    (catalogs : list catalog) (tr : trace) :
  (1 < length (List.filter (entry_matches self) catalogs))%nat ->
  exists pre config post before cmd after,
    catalogs = pre ++ config :: post /\
    Exists (fun c => entry_matches self c = true) pre /\
    entry_matches self config = true /\
    Forall (fun c => entry_matches self c = false) post /\
    commands_of config = before ++ cmd :: after /\
    str_eq (system_name cmd) (_command_name self) = true /\
    Forall (fun c => str_eq (system_name c) (_command_name self) = false)
      before /\
    execute_with_context self_str self catalogs tr =
      (Ok (set_resolved_command self cmd),
       tr ++ [EvThreadStart true (set_resolved_command self cmd)]).
Proof.
  intros Hmany.
  destruct (last_match_split (entry_matches self) catalogs)
    as (pre & config & post & -> & Hm & Hpost & Hlen); [lia|].
  destruct (scan_all_last self pre post config Hm Hpost)
    as (before & cmd & after & Hcmds & Hc & Hb & Hfold).
  exists pre, config, post, before, cmd, after.
  split; [done|]. split.
  { apply filter_nonempty_Exists. lia. }
  do 5 (split; [done|]). by apply resolve_binds.
Qed.

Lemma C2_last_matching_catalog_wins_witness :
  let old := nuke false (Returned (PStr "old")) in
  let new := nuke true (Returned (PStr "new")) in
  let catalogs :=
    [catalog_of (Some "Primary") (Some [old]); catalog_of None (Some [new])] in
  (1 < length (List.filter (entry_matches my_tasks_request) catalogs))%nat /\
  exists pre config post before cmd after,
    catalogs = pre ++ config :: post /\
    Exists (fun c => entry_matches my_tasks_request c = true) pre /\
    entry_matches my_tasks_request config = true /\
    Forall (fun c => entry_matches my_tasks_request c = false) post /\
    commands_of config = before ++ cmd :: after /\
    str_eq (system_name cmd) (_command_name my_tasks_request) = true /\
    Forall (fun c => str_eq (system_name c)
                       (_command_name my_tasks_request) = false) before /\
    execute_with_context "request" my_tasks_request catalogs [] =
      (Ok (set_resolved_command my_tasks_request cmd),
       [] ++ [EvThreadStart true (set_resolved_command my_tasks_request cmd)]).
Proof.
  intros old new catalogs.
  assert (Hmany :
    (1 < length (List.filter (entry_matches my_tasks_request) catalogs))%nat).
  { vm_compute. lia. }
  split; [exact Hmany|].
  exact (C2_last_matching_catalog_wins "request" my_tasks_request catalogs []
           Hmany).
Defined.

(** C3: a catalog entry whose configuration name is empty has the effective
    scope name "Primary"; so against the single catalog
    [{configurationName: "", commands: [cmdA]}] a request for configuration
    "Primary" and for cmdA's system name resolves to cmdA. *)
Theorem C3_empty_name_is_primary (self_str : string) (self : request)
    (cmdA : command) (err : option string) (tr : trace) :
  _config_name self = PStr "Primary" ->
  _command_name self = PStr (system_name cmdA) ->
  (forall config,
     pipeline_configuration_name (cat_configuration config) = Some "" ->
     config_name_of config = "Primary") /\
  execute_with_context self_str self
    [{| cat_configuration := {| pipeline_configuration_name := Some "" |};
        cat_commands := Some [cmdA];
        cat_error := err |}] tr =
    (Ok (set_resolved_command self cmdA),
     tr ++ [EvThreadStart true (set_resolved_command self cmdA)]).
Proof.
  intros Hc Hn. split.
  - intros config H. unfold config_name_of. by rewrite H.
  - apply resolve_binds. cbn [fold_left]. unfold scan_config.
    rewrite Hc, Hn. cbn -[String.eqb].
    by rewrite !String.eqb_refl.
Qed.

Lemma C3_empty_name_is_primary_witness :
  _config_name my_tasks_request = PStr "Primary" /\
  _command_name my_tasks_request =
    PStr (system_name (nuke false (Returned PNone))) /\
  execute_with_context "request" my_tasks_request
    [catalog_of (Some "") (Some [nuke false (Returned PNone)])] [] =
    (Ok (set_resolved_command my_tasks_request (nuke false (Returned PNone))),
     [EvThreadStart true
        (set_resolved_command my_tasks_request
           (nuke false (Returned PNone)))]).
Proof.
  split; [reflexivity|]. split; [reflexivity|].
  exact (proj2 (C3_empty_name_is_primary "request" my_tasks_request
                  (nuke false (Returned PNone)) None [] eq_refl eq_refl)).
Defined.

(** C4: for a constructed request and catalogs none of which matches it
    (a catalog whose commands are null holds no command), resolution raises
    the RuntimeError "Configuration mismatch!" to its caller; the trace is
    unchanged, so no worker thread has been started and no reply sent. *)
Theorem C4_no_match_is_configuration_mismatch (self_str : string)
    (conn : connection) (parameters : gmap string pyval) (tr0 tr1 : trace)
    (self : request) (catalogs : list catalog) (tr : trace) :
  __init__ self_str conn parameters tr0 = (Ok self, tr1) ->
  Forall (fun config => entry_matches self config = false) catalogs ->
  execute_with_context self_str self catalogs tr =
    (Err (RuntimeError (self_str +:+ ": Configuration mismatch!")), tr).
Proof.
  intros Hinit Hno. apply resolve_fails_unresolved; [|done].
  by eapply init_unresolved.
Qed.

Lemma C4_no_match_is_configuration_mismatch_witness :
  let catalogs :=
    [catalog_of (Some "Primary") None;
     catalog_of (Some "Dev") (Some [nuke false (Returned PNone)]);
     catalog_of None (Some [])] in
  Forall (fun config => entry_matches my_tasks_request config = false)
    catalogs /\
  execute_with_context "request" my_tasks_request catalogs [] =
    (Err (RuntimeError "request: Configuration mismatch!"), []).
Proof.
  intros catalogs.
  assert (Hno : Forall (fun config =>
                  entry_matches my_tasks_request config = false) catalogs).
  { repeat constructor. }
  split; [exact Hno|].
  exact (C4_no_match_is_configuration_mismatch "request" site_87
           my_tasks_payload [] _ my_tasks_request catalogs []
           eq_refl Hno).
Defined.

(** C5: entity-reference normalisation.  Take a payload with the six
    required keys.  If [entity_ids] is a sequence of bare integers, every
    request the constructor returns has the first integer as primary entity
    id and the sequence itself as entity ids; if it is a sequence of records
    with an [id], every request the constructor returns has the first
    record's id as primary entity id and the records' ids, in order, as
    entity ids.  In both cases the constructor does return a request as soon
    as the project id is there to take: given in the payload, or null in the
    payload and found by the lookup. *)
Theorem C5_entity_normalization (self_str : string) (conn : connection)
    (parameters : gmap string pyval) (tr : trace) (et pid : pyval) :
  (forall k, In k required_params -> is_Some (parameters !! k)) ->
  parameters !! "entity_type" = Some et ->
  (forall z zs,
     parameters !! "entity_ids" = Some (PList (PInt <$> z :: zs)) ->
     (forall self tr',
        __init__ self_str conn parameters tr = (Ok self, tr') ->
        _entity_id self = PInt z /\
        _entity_ids self = PList (PInt <$> z :: zs)) /\
     (project_resolves conn parameters et (PInt z) pid ->
      exists self tr',
        __init__ self_str conn parameters tr = (Ok self, tr') /\
        _entity_id self = PInt z /\
        _entity_ids self = PList (PInt <$> z :: zs))) /\
  (forall d ds i ids,
     parameters !! "entity_ids" = Some (PList (PDict <$> d :: ds)) ->
     Forall2 (fun d i => d !! "id" = Some (PInt i)) (d :: ds) (i :: ids) ->
     (forall self tr',
        __init__ self_str conn parameters tr = (Ok self, tr') ->
        _entity_id self = PInt i /\
        _entity_ids self = PList (PInt <$> i :: ids)) /\
     (project_resolves conn parameters et (PInt i) pid ->
      exists self tr',
        __init__ self_str conn parameters tr = (Ok self, tr') /\
        _entity_id self = PInt i /\
        _entity_ids self = PList (PInt <$> i :: ids))).
Proof.
  intros Hall Het. split.
  - intros z zs Hids.
    pose proof (entity_fields_ints _ _ _ Hids) as Hef. split.
    + intros self tr' Hinit.
      destruct (init_inv _ _ _ _ _ _ Hinit) as (ef & Hef' & -> & ->).
      rewrite Hef in Hef'. by inversion Hef'.
    + intros Hres.
      destruct (init_returns self_str conn parameters tr _ _ _ _
                  Hall Het Hef Hres) as (self & tr' & Hrun & Hid & Hl & _).
      by exists self, tr'.
  - intros d ds i ids Hids HF.
    pose proof (entity_fields_dicts _ _ _ _ _ Hids HF) as Hef. split.
    + intros self tr' Hinit.
      destruct (init_inv _ _ _ _ _ _ Hinit) as (ef & Hef' & -> & ->).
      rewrite Hef in Hef'. by inversion Hef'.
    + intros Hres.
      destruct (init_returns self_str conn parameters tr _ _ _ _
                  Hall Het Hef Hres) as (self & tr' & Hrun & Hid & Hl & _).
      by exists self, tr'.
Qed.

Lemma C5_entity_normalization_witness :
  (forall k, In k required_params -> is_Some (spreadsheet_payload !! k)) /\
  (forall k, In k required_params -> is_Some (my_tasks_payload !! k)) /\
  (exists self tr',
     __init__ "request" site_87 spreadsheet_payload [] = (Ok self, tr') /\
     _entity_id self = PInt 6947 /\
     _entity_ids self = PList (PInt <$> [6947])) /\
  (exists self tr',
     __init__ "request" site_87 my_tasks_payload [] = (Ok self, tr') /\
     _entity_id self = PInt 5757 /\
     _entity_ids self = PList (PInt <$> [5757])).
Proof.
  assert (Hints : forall k, In k required_params ->
                            is_Some (spreadsheet_payload !! k)).
  { intros k Hk. each_key Hk. }
  assert (Hrecords : forall k, In k required_params ->
                               is_Some (my_tasks_payload !! k)).
  { intros k Hk. each_key Hk. }
  split; [exact Hints|]. split; [exact Hrecords|]. split.
  - refine (proj2 (proj1 (C5_entity_normalization "request" site_87
                            spreadsheet_payload [] (PStr "Version") (PInt 87)
                            Hints eq_refl) 6947 [] eq_refl) _).
    left. split; [reflexivity | discriminate].
  - refine (proj2 (proj2 (C5_entity_normalization "request" site_87
                            my_tasks_payload [] (PStr "Task") (PInt 87)
                            Hrecords eq_refl) task_entity [] 5757 []
                     eq_refl _) _).
    + repeat constructor.
    + right. split; [reflexivity|]. eexists _, _.
      split; [reflexivity|]. split; reflexivity.
Defined.

(** C6: a payload that lacks one of the six required keys is rejected with a
    ValueError whose message names a missing key, and the trace is unchanged:
    no lookup was made and nothing was replied. *)
Theorem C6_missing_key_rejected (self_str : string) (conn : connection)
    (parameters : gmap string pyval) (tr : trace) :
  (exists k, In k required_params /\ parameters !! k = None) ->
  exists k,
    In k ["name"; "title"; "pc"; "entity_ids"; "entity_type"; "project_id"] /\
    parameters !! k = None /\
    __init__ self_str conn parameters tr =
      (Err (ValueError
              (self_str +:+ ": Missing parameter '" +:+ k +:+ "' in payload.")),
       tr).
Proof.
  intros (k0 & Hin & Hk0).
  destruct (check_required_missing self_str parameters required_params)
    as (before & k & after & E & _ & Hk & Hc).
  { apply Exists_exists. exists k0. split; [by apply list_elem_of_In | done]. }
  exists k. split; [|split; [done|]].
  - change (In k required_params). rewrite E. apply in_elt.
  - by apply init_rejected.
Qed.

Lemma C6_missing_key_rejected_witness :
  let parameters := delete "pc" spreadsheet_payload in
  (exists k, In k required_params /\ parameters !! k = None) /\
  exists k,
    In k ["name"; "title"; "pc"; "entity_ids"; "entity_type"; "project_id"] /\
    parameters !! k = None /\
    __init__ "request" site_87 parameters [] =
      (Err (ValueError
              ("request" +:+ ": Missing parameter '" +:+ k +:+ "' in payload.")),
       []).
Proof.
  intros parameters.
  assert (H : exists k, In k required_params /\ parameters !! k = None).
  { exists "pc". split; [simpl; tauto | reflexivity]. }
  split; [exact H|].
  exact (C6_missing_key_rejected "request" site_87 parameters [] H).
Defined.









(** C10: a payload that carries all six required keys but an empty list of
    entity ids is not rejected by validation: construction fails on the
    subscript [entity_ids[0]] with an IndexError, which is no ValueError,
    before any lookup. *)
Theorem C10_empty_entity_ids_index_error (self_str : string)
    (conn : connection) (parameters : gmap string pyval) (tr : trace) :
  (forall k, In k required_params -> is_Some (parameters !! k)) ->
  parameters !! "entity_ids" = Some (PList []) ->
  __init__ self_str conn parameters tr = (Err IndexError, tr) /\
  forall msg, IndexError <> ValueError msg.
Proof.
  intros Hall Hids. split; [|done].
  destruct (all_required_values _ Hall)
    as (n & t & c & ids & et & pid & Hn & Ht & Hc & _ & Het & _).
  rewrite (init_accepted _ _ _ _ n t c et Hall Hn Ht Hc Het).
  unfold entity_fields, param. by rewrite Hids.
Qed.

Lemma C10_empty_entity_ids_index_error_witness :
  let parameters := <["entity_ids" := PList []]> spreadsheet_payload in
  (forall k, In k required_params -> is_Some (parameters !! k)) /\
  __init__ "request" site_87 parameters [] = (Err IndexError, []).
Proof.
  intros parameters.
  assert (Hall : forall k, In k required_params -> is_Some (parameters !! k)).
  { intros k Hk. each_key Hk. }
  split; [exact Hall|].
  exact (proj1 (C10_empty_entity_ids_index_error "request" site_87 parameters
                  [] Hall eq_refl)).
Defined.

(** * Further properties of the constructor *)

Lemma check_required_stops (self_str : string)
    (parameters : gmap string pyval) (before : list string) (k : string)
    (after : list string) :
  Forall (fun k' => is_Some (parameters !! k')) before ->
  parameters !! k = None ->
  check_required self_str parameters (before ++ k :: after) =
    Err (ValueError (missing_parameter self_str k)).
Proof.
  intros Hb Hk. induction Hb as [|k' before [v Hv] _ IH]; simpl.
  - by rewrite Hk.
  - by rewrite Hv.
Qed.

Lemma check_required_insert_other (self_str : string)
    (parameters : gmap string pyval) (k : string) (v : pyval)
    (ps : list string) :
  ~ In k ps ->
  check_required self_str (<[k:=v]> parameters) ps =
  check_required self_str parameters ps.
Proof.
  induction ps as [|p ps IH]; intros Hk; simpl; [done|].
  rewrite lookup_insert_ne by (intros ->; apply Hk; by left).
  rewrite IH by (intros H; apply Hk; by right). done.
Qed.

Lemma ids_of_stops (ds : list (gmap string pyval)) (bad : pyval)
    (rest : list pyval) (e : exn) :
  Forall (fun d => is_Some (d !! "id")) ds ->
  getitem_str bad "id" = Err e ->
  ids_of ((PDict <$> ds) ++ bad :: rest) = Err e.
Proof.
  intros Hds Hbad. induction Hds as [|d ds [i Hi] _ IH].
  - cbn [fmap list_fmap app ids_of]. by rewrite Hbad.
  - rewrite fmap_cons. cbn [app ids_of getitem_str]. by rewrite Hi, IH.
Qed.

Lemma init_entity_error (self_str : string) (conn : connection)
    (parameters : gmap string pyval) (tr : trace) (e : exn) :
  all_required parameters ->
  entity_fields parameters = Err e ->
  __init__ self_str conn parameters tr = (Err e, tr).
Proof.
  intros Hall He.
  destruct (all_required_values _ Hall)
    as (n & t & c & ids & et & pid & Hn & Ht & Hc & _ & Het & _).
  by rewrite (init_accepted _ _ _ _ n t c et Hall Hn Ht Hc Het), He.
Qed.

Lemma init_lookup (self_str : string) (conn : connection)
    (parameters : gmap string pyval) (tr : trace) (et eid eids : pyval) :
  all_required parameters ->
  parameters !! "entity_type" = Some et ->
  entity_fields parameters = Ok (eid, eids) ->
  parameters !! "project_id" = Some PNone ->
  (__init__ self_str conn parameters tr).2 =
    tr ++ [EvFindOne et (id_is eid) project_field] /\
  forall e,
    match find_one conn et (id_is eid) project_field with
    | Err x => Err x
    | Ok sg_data =>
        match getitem_str sg_data "project" with
        | Err x => Err x
        | Ok project => getitem_str project "id"
        end
    end = Err e ->
    (__init__ self_str conn parameters tr).1 = Err e.
Proof.
  intros Hall Het Hef Hp.
  destruct (all_required_values _ Hall)
    as (n & t & c & ids & et' & pid & Hn & Ht & Hc & _ & Het' & _).
  assert (et' = et) as -> by congruence.
  rewrite (init_accepted _ _ _ _ n t c et Hall Hn Ht Hc Het), Hef.
  cbn [fst snd]. rewrite (resolve_project_id_null _ _ _ _ _ Hp).
  fold (id_is eid). fold project_field.
  destruct (match find_one conn et (id_is eid) project_field with
            | Ok _ => _ | Err _ => _ end) as [pid'|e'] eqn:E.
  - split; [done|]. intros e [=].
  - split; [done|]. by intros e [= ->].
Qed.

(** X1: when several required keys are missing, the error names the first
    missing one in the order name, title, pc, entity_ids, entity_type,
    project_id, and nothing has been looked up. *)
Theorem X1_first_missing_key_is_named (self_str : string) (conn : connection)
    (parameters : gmap string pyval) (tr : trace) (before : list string)
    (k : string) (after : list string) :
  required_params = before ++ k :: after ->
  (forall k', In k' before -> is_Some (parameters !! k')) ->
  parameters !! k = None ->
  __init__ self_str conn parameters tr =
    (Err (ValueError
            (self_str +:+ ": Missing parameter '" +:+ k +:+ "' in payload.")),
     tr).
Proof.
  intros E Hb Hk. apply init_rejected. rewrite E.
  apply check_required_stops; [|done].
  apply Forall_forall. intros k' Hk'. apply Hb. by apply list_elem_of_In.
Qed.

Lemma X1_first_missing_key_is_named_witness :
  let parameters := delete "pc" (delete "project_id" spreadsheet_payload) in
  parameters !! "project_id" = None /\
  __init__ "request" site_87 parameters [] =
    (Err (ValueError "request: Missing parameter 'pc' in payload."), []).
Proof.
  intros parameters. split; [reflexivity|].
  refine (X1_first_missing_key_is_named "request" site_87 parameters []
            ["name"; "title"] "pc" ["entity_ids"; "entity_type"; "project_id"]
            eq_refl _ eq_refl).
  intros k' Hk'. each_key Hk'.
Defined.

(** X2: keys of the payload other than the six required ones are never read:
    adding or overwriting one changes neither the result nor the lookups. *)
Theorem X2_other_keys_are_ignored (self_str : string) (conn : connection)
    (parameters : gmap string pyval) (tr : trace) (k : string) (v : pyval) :
  ~ In k required_params ->
  __init__ self_str conn (<[k:=v]> parameters) tr =
  __init__ self_str conn parameters tr.
Proof.
  intros Hk.
  assert (Hne : forall k', In k' required_params ->
                           <[k:=v]> parameters !! k' = parameters !! k').
  { intros k' Hk'. apply lookup_insert_ne. by intros ->. }
  unfold __init__, resolve_project_id, entity_fields, param.
  rewrite check_required_insert_other by done.
  rewrite (Hne "name"), (Hne "title"), (Hne "pc"), (Hne "entity_ids"),
    (Hne "entity_type"), (Hne "project_id") by (simpl; tauto).
  done.
Qed.

Lemma X2_other_keys_are_ignored_witness :
  ~ In "user" required_params /\
  __init__ "request" site_87
    (<["user" := PDict {[ "login" := PStr "artist" ]}]> my_tasks_payload) [] =
  __init__ "request" site_87 my_tasks_payload [].
Proof.
  assert (H : ~ In "user" required_params).
  { simpl. intros [|[|[|[|[|[|[]]]]]]]; discriminate. }
  split; [exact H|].
  exact (X2_other_keys_are_ignored "request" site_87 my_tasks_payload []
           "user" _ H).
Defined.

(** X3: the encoding of [entity_ids] is decided by its first element alone.
    When that element is not a dict the list is kept as it is, so records
    further down the list are not projected to their ids. *)
Theorem X3_first_element_decides_encoding (self_str : string)
    (conn : connection) (parameters : gmap string pyval) (tr tr' : trace)
    (self : request) (x : pyval) (l : list pyval) :
  __init__ self_str conn parameters tr = (Ok self, tr') ->
  parameters !! "entity_ids" = Some (PList (x :: l)) ->
  is_dict x = false ->
  _entity_id self = x /\ _entity_ids self = PList (x :: l).
Proof.
  intros Hinit Hids Hx.
  destruct (init_inv _ _ _ _ _ _ Hinit) as (ef & Hef & -> & ->).
  unfold entity_fields, param in Hef. rewrite Hids in Hef.
  cbn [getitem_0] in Hef. rewrite Hx in Hef. by inversion Hef.
Qed.

Lemma X3_first_element_decides_encoding_witness :
  let mixed := PList [PInt 6947; PDict task_entity] in
  let parameters := <["entity_ids" := mixed]> spreadsheet_payload in
  exists self,
    __init__ "request" site_87 parameters [] = (Ok self, []) /\
    _entity_id self = PInt 6947 /\ _entity_ids self = mixed.
Proof.
  intros mixed parameters. eexists. split; [reflexivity|].
  exact (X3_first_element_decides_encoding "request" site_87 parameters [] []
           _ (PInt 6947) [PDict task_entity] eq_refl eq_refl eq_refl).
Defined.

(** X4: a list of records in which some record has no [id] is rejected with
    [KeyError('id')] before any lookup, wherever that record stands. *)
Theorem X4_record_without_id_is_key_error (self_str : string)
    (conn : connection) (parameters : gmap string pyval) (tr : trace)
    (ds : list (gmap string pyval)) (b : gmap string pyval)
    (rest : list pyval) :
  (forall k, In k required_params -> is_Some (parameters !! k)) ->
  parameters !! "entity_ids" = Some (PList ((PDict <$> ds) ++ PDict b :: rest)) ->
  Forall (fun d => is_Some (d !! "id")) ds ->
  b !! "id" = None ->
  __init__ self_str conn parameters tr = (Err (KeyError (PStr "id")), tr).
Proof.
  intros Hall Hids Hds Hb. apply init_entity_error; [done|].
  assert (Hbad : getitem_str (PDict b) "id" = Err (KeyError (PStr "id"))).
  { cbn [getitem_str]. by rewrite Hb. }
  pose proof (ids_of_stops ds (PDict b) rest _ Hds Hbad) as Hstop.
  unfold entity_fields, param. rewrite Hids.
  destruct Hds as [|d ds [i Hi] Hds].
  - cbn [fmap list_fmap app getitem_0 is_dict]. by rewrite Hbad.
  - unfold comprehension_ids. rewrite Hstop. rewrite fmap_cons.
    cbn [app getitem_0 is_dict getitem_str]. by rewrite Hi.
Qed.

Lemma X4_record_without_id_is_key_error_witness :
  let nameless : gmap string pyval := {[ "type" := PStr "Task" ]} in
  let parameters :=
    <["entity_ids" := PList [PDict task_entity; PDict nameless]]>
      my_tasks_payload in
  (forall k, In k required_params -> is_Some (parameters !! k)) /\
  __init__ "request" site_87 parameters [] = (Err (KeyError (PStr "id")), []).
Proof.
  intros nameless parameters.
  assert (Hall : forall k, In k required_params -> is_Some (parameters !! k)).
  { intros k Hk. each_key Hk. }
  split; [exact Hall|].
  refine (X4_record_without_id_is_key_error "request" site_87 parameters []
            [task_entity] nameless [] Hall eq_refl _ eq_refl).
  repeat constructor. by eexists.
Defined.

(** X5: a list that starts with a record but holds an item that is not a
    record is rejected with a [TypeError] before any lookup. *)
Theorem X5_non_record_among_records_is_type_error (self_str : string)
    (conn : connection) (parameters : gmap string pyval) (tr : trace)
    (d : gmap string pyval) (ds : list (gmap string pyval)) (bad : pyval)
    (rest : list pyval) :
  (forall k, In k required_params -> is_Some (parameters !! k)) ->
  parameters !! "entity_ids" =
    Some (PList ((PDict <$> d :: ds) ++ bad :: rest)) ->
  Forall (fun d => is_Some (d !! "id")) (d :: ds) ->
  is_dict bad = false ->
  __init__ self_str conn parameters tr = (Err TypeError, tr).
Proof.
  intros Hall Hids Hds Hbad. apply init_entity_error; [done|].
  assert (Hb : getitem_str bad "id" = Err TypeError) by by destruct bad.
  pose proof (ids_of_stops (d :: ds) bad rest _ Hds Hb) as Hstop.
  unfold entity_fields, param. rewrite Hids.
  unfold comprehension_ids. rewrite Hstop. rewrite fmap_cons.
  inversion Hds as [|? ? [i Hi] _]; subst.
  cbn [app getitem_0 is_dict getitem_str]. by rewrite Hi.
Qed.

Lemma X5_non_record_among_records_is_type_error_witness :
  let parameters :=
    <["entity_ids" := PList [PDict task_entity; PInt 5758]]>
      my_tasks_payload in
  (forall k, In k required_params -> is_Some (parameters !! k)) /\
  __init__ "request" site_87 parameters [] = (Err TypeError, []).
Proof.
  intros parameters.
  assert (Hall : forall k, In k required_params -> is_Some (parameters !! k)).
  { intros k Hk. each_key Hk. }
  split; [exact Hall|].
  refine (X5_non_record_among_records_is_type_error "request" site_87
            parameters [] task_entity [] (PInt 5758) [] Hall eq_refl _ eq_refl).
  repeat constructor. by eexists.
Defined.

(** X6: when the project id has to be looked up and [find_one] raises, the
    constructor raises that same exception, after exactly one lookup. *)
Theorem X6_lookup_exception_propagates (self_str : string)
    (conn : connection) (parameters : gmap string pyval) (tr : trace)
    (et eid eids : pyval) (e : exn) :
  (forall k, In k required_params -> is_Some (parameters !! k)) ->
  parameters !! "entity_type" = Some et ->
  entity_fields parameters = Ok (eid, eids) ->
  parameters !! "project_id" = Some PNone ->
  find_one conn et (PList [PList [PStr "id"; PStr "is"; eid]])
    (PList [PStr "project"]) = Err e ->
  __init__ self_str conn parameters tr =
    (Err e,
     tr ++ [EvFindOne et (PList [PList [PStr "id"; PStr "is"; eid]])
              (PList [PStr "project"])]).
Proof.
  intros Hall Het Hef Hp Hfind.
  destruct (init_lookup self_str conn parameters tr et eid eids
              Hall Het Hef Hp) as [Htr Herr].
  specialize (Herr e). unfold id_is, project_field in *.
  rewrite Hfind in Herr. specialize (Herr eq_refl).
  destruct (__init__ self_str conn parameters tr) as [r tr'].
  simpl in *. by subst.
Qed.

Lemma X6_lookup_exception_propagates_witness :
  let down := site_answering (Err (Failure "connection refused")) in
  (forall k, In k required_params -> is_Some (my_tasks_payload !! k)) /\
  __init__ "request" down my_tasks_payload [] =
    (Err (Failure "connection refused"),
     [EvFindOne (PStr "Task") (PList [PList [PStr "id"; PStr "is"; PInt 5757]])
        (PList [PStr "project"])]).
Proof.
  intros down.
  assert (Hall : forall k, In k required_params ->
                           is_Some (my_tasks_payload !! k)).
  { intros k Hk. each_key Hk. }
  split; [exact Hall|].
  exact (X6_lookup_exception_propagates "request" down my_tasks_payload []
           (PStr "Task") (PInt 5757) (PList [PInt 5757])
           (Failure "connection refused") Hall eq_refl eq_refl eq_refl eq_refl).
Defined.

(** X7: when the project id has to be looked up and [find_one] finds no
    entity (it returns [None]), or finds one whose [project] is [None], the
    constructor fails with a [TypeError]; when the entity comes back without
    a [project] field it fails with [KeyError('project')].  In each case
    exactly one lookup was made. *)
Theorem X7_entity_without_project_fails (self_str : string)
    (conn : connection) (parameters : gmap string pyval) (tr : trace)
    (et eid eids : pyval) :
  (forall k, In k required_params -> is_Some (parameters !! k)) ->
  parameters !! "entity_type" = Some et ->
  entity_fields parameters = Ok (eid, eids) ->
  parameters !! "project_id" = Some PNone ->
  let filters := PList [PList [PStr "id"; PStr "is"; eid]] in
  let fields := PList [PStr "project"] in
  (find_one conn et filters fields = Ok PNone ->
   __init__ self_str conn parameters tr =
     (Err TypeError, tr ++ [EvFindOne et filters fields])) /\
  (forall sg, find_one conn et filters fields = Ok (PDict sg) ->
     sg !! "project" = Some PNone ->
     __init__ self_str conn parameters tr =
       (Err TypeError, tr ++ [EvFindOne et filters fields])) /\
  (forall sg, find_one conn et filters fields = Ok (PDict sg) ->
     sg !! "project" = None ->
     __init__ self_str conn parameters tr =
       (Err (KeyError (PStr "project")), tr ++ [EvFindOne et filters fields])).
Proof.
  intros Hall Het Hef Hp filters fields.
  destruct (init_lookup self_str conn parameters tr et eid eids
              Hall Het Hef Hp) as [Htr Herr].
  unfold id_is, project_field in *. fold filters fields in Htr, Herr.
  destruct (__init__ self_str conn parameters tr) as [r tr'].
  simpl in Htr, Herr. subst tr'.
  split; [|split].
  - intros Hfind. rewrite Hfind in Herr. by rewrite (Herr TypeError eq_refl).
  - intros sg Hfind Hsg. rewrite Hfind in Herr. cbn [getitem_str] in Herr.
    rewrite Hsg in Herr. by rewrite (Herr TypeError eq_refl).
  - intros sg Hfind Hsg. rewrite Hfind in Herr. cbn [getitem_str] in Herr.
    rewrite Hsg in Herr. by rewrite (Herr _ eq_refl).
Qed.

Lemma X7_entity_without_project_fails_witness :
  let empty_site := site_answering (Ok PNone) in
  (forall k, In k required_params -> is_Some (my_tasks_payload !! k)) /\
  __init__ "request" empty_site my_tasks_payload [] =
    (Err TypeError,
     [EvFindOne (PStr "Task") (PList [PList [PStr "id"; PStr "is"; PInt 5757]])
        (PList [PStr "project"])]).
Proof.
  intros empty_site.
  assert (Hall : forall k, In k required_params ->
                           is_Some (my_tasks_payload !! k)).
  { intros k Hk. each_key Hk. }
  split; [exact Hall|].
  exact (proj1 (X7_entity_without_project_fails "request" empty_site
                  my_tasks_payload [] (PStr "Task") (PInt 5757)
                  (PList [PInt 5757]) Hall eq_refl eq_refl eq_refl) eq_refl).
Defined.

Lemma check_required_ok_inv (self_str : string)
    (parameters : gmap string pyval) (ps : list string) :
  check_required self_str parameters ps = Ok tt ->
  forall k, In k ps -> is_Some (parameters !! k).
Proof.
  induction ps as [|p ps IH]; simpl; [by intros _ k []|].
  destruct (parameters !! p) as [v|] eqn:Ep; [|done].
  intros H k [<-|Hk]; [by eexists | by apply IH].
Qed.

(** X8: whatever the payload, the only thing the constructor does to the
    outside world is at most one [find_one] query for the [project] of an
    entity by id, and that only when [project_id] is null: it replies
    nothing, calls no command and starts no thread. *)
Theorem X8_constructor_makes_at_most_one_lookup (self_str : string)
    (conn : connection) (parameters : gmap string pyval) (tr : trace) :
  (__init__ self_str conn parameters tr).2 = tr \/
  (parameters !! "project_id" = Some PNone /\
   exists et eid,
     (__init__ self_str conn parameters tr).2 =
       tr ++ [EvFindOne et (PList [PList [PStr "id"; PStr "is"; eid]])
                (PList [PStr "project"])]).
Proof.
  destruct (check_required self_str parameters required_params) as [[]|e] eqn:Hc.
  - pose proof (check_required_ok_inv _ _ _ Hc) as Hall.
    destruct (all_required_values _ Hall)
      as (n & t & c & ids & et & pid & Hn & Ht & Hc' & _ & Het & Hpid).
    destruct (entity_fields parameters) as [[eid eids]|e] eqn:Hef.
    + destruct (decide (is_none pid = true)) as [Hnone|Hsome].
      * destruct pid; try discriminate. right. split; [done|].
        exists et, eid.
        apply (init_lookup self_str conn parameters tr et eid eids
                 Hall Het Hef Hpid).
      * left.
        rewrite (init_accepted _ _ _ _ n t c et Hall Hn Ht Hc' Het), Hef.
        cbn [fst snd]. rewrite (resolve_project_id_given _ _ _ _ pid); auto.
        intros ->. by apply Hsome.
    + left. by rewrite (init_entity_error _ _ _ _ e Hall Hef).
  - left. by rewrite (init_rejected _ _ _ _ e Hc).
Qed.

(** X9: an [entity_ids] value that is null, a boolean or a number cannot be
    subscripted: the constructor fails with a [TypeError] before any lookup,
    not with the [ValueError] of validation. *)
Theorem X9_scalar_entity_ids_is_type_error (self_str : string)
    (conn : connection) (parameters : gmap string pyval) (tr : trace)
    (v : pyval) :
  (forall k, In k required_params -> is_Some (parameters !! k)) ->
  parameters !! "entity_ids" = Some v ->
  (v = PNone \/ (exists b, v = PBool b) \/ (exists z, v = PInt z)) ->
  __init__ self_str conn parameters tr = (Err TypeError, tr).
Proof.
  intros Hall Hids Hv. apply init_entity_error; [done|].
  unfold entity_fields, param. rewrite Hids.
  by destruct Hv as [->|[[b ->]|[z ->]]].
Qed.

Lemma X9_scalar_entity_ids_is_type_error_witness :
  let parameters := <["entity_ids" := PInt 6947]> spreadsheet_payload in
  (forall k, In k required_params -> is_Some (parameters !! k)) /\
  __init__ "request" site_87 parameters [] = (Err TypeError, []).
Proof.
  intros parameters.
  assert (Hall : forall k, In k required_params -> is_Some (parameters !! k)).
  { intros k Hk. each_key Hk. }
  split; [exact Hall|].
  refine (X9_scalar_entity_ids_is_type_error "request" site_87 parameters []
            (PInt 6947) Hall eq_refl _).
  right. right. by exists 6947.
Defined.

Lemma init_inv_plain (self_str : string) (conn : connection)
    (parameters : gmap string pyval) (tr tr' : trace) (self : request) :
  __init__ self_str conn parameters tr = (Ok self, tr') ->
  parameters !! "name" = Some (_command_name self) /\
  parameters !! "title" = Some (_command_title self) /\
  parameters !! "pc" = Some (_config_name self) /\
  parameters !! "entity_type" = Some (_entity_type self).
Proof.
  unfold __init__, bind, lift, ret, param. intros H.
  destruct (check_required _ _ _); [|done].
  destruct (parameters !! "name") as [n|]; [|done].
  destruct (parameters !! "title") as [t|]; [|done].
  destruct (parameters !! "pc") as [c|]; [|done].
  destruct (parameters !! "entity_type") as [et|]; [|done].
  destruct (entity_fields parameters) as [ef|]; [|done].
  destruct (resolve_project_id _ _ _ _ _) as [[pid|] ?]; [|done].
  by inversion H.
Qed.

(** X10: the constructor checks the presence of [name], [title], [pc] and
    [entity_type] but not their type: whenever it returns a request, these
    four values are the payload's own, whatever they are, and the
    [entity_type] property reads the payload's [entity_type] back. *)
Theorem X10_plain_fields_are_taken_verbatim (self_str : string)
    (conn : connection) (parameters : gmap string pyval) (tr tr' : trace)
    (self : request) :
  __init__ self_str conn parameters tr = (Ok self, tr') ->
  parameters !! "name" = Some (_command_name self) /\
  parameters !! "title" = Some (_command_title self) /\
  parameters !! "pc" = Some (_config_name self) /\
  parameters !! "entity_type" = Some (entity_type self).
Proof. apply init_inv_plain. Qed.

Lemma X10_plain_fields_are_taken_verbatim_witness :
  let parameters :=
    <["pc" := PInt 7]> (<["entity_type" := PNone]> spreadsheet_payload) in
  exists self,
    __init__ "request" site_87 parameters [] = (Ok self, []) /\
    _config_name self = PInt 7 /\ entity_type self = PNone.
Proof.
  intros parameters. eexists. split; [reflexivity|].
  destruct (X10_plain_fields_are_taken_verbatim "request" site_87 parameters
              [] [] _ eq_refl) as (_ & _ & Hpc & Het).
  split; [by inversion Hpc | by inversion Het].
Defined.

(** * Further properties of resolution *)

Lemma Forall_or_Exists_match (self : request) (catalogs : list catalog) :
  Forall (fun c => entry_matches self c = false) catalogs \/
  (0 < length (List.filter (entry_matches self) catalogs))%nat.
Proof.
  induction catalogs as [|c cs IH]; simpl; [by left|].
  destruct (entry_matches self c) eqn:E; [right; simpl; lia|].
  destruct IH as [IH|IH]; [left; by constructor | by right].
Qed.

Lemma filter_nil_Forall_inv {A} (P : A -> bool) (l : list A) :
  (0 < length (List.filter P l))%nat ->
  Forall (fun x => P x = false) l -> False.
Proof.
  intros Hlen Hno. induction Hno as [|x l Hx _ IH]; simpl in Hlen; [lia|].
  rewrite Hx in Hlen. auto.
Qed.

Lemma Exists_filter_nonempty {A} (P : A -> bool) (l : list A) :
  Exists (fun x => P x = true) l -> (0 < length (List.filter P l))%nat.
Proof.
  induction 1 as [x l Hx|x l _ IH]; simpl.
  - rewrite Hx. simpl. lia.
  - destruct (P x); simpl; lia.
Qed.

(** The two ways the outer loop can end. *)
Lemma scan_all_cases (self : request) (catalogs : list catalog) :
  (Forall (fun c => entry_matches self c = false) catalogs /\
   fold_left scan_config catalogs self = self) \/
  (exists pre config post before cmd after,
     catalogs = pre ++ config :: post /\
     entry_matches self config = true /\
     Forall (fun c => entry_matches self c = false) post /\
     commands_of config = before ++ cmd :: after /\
     command_matches self cmd = true /\
     Forall (fun c => command_matches self c = false) before /\
     fold_left scan_config catalogs self = set_resolved_command self cmd).
Proof.
  destruct (Forall_or_Exists_match self catalogs) as [Hno|Hsome].
  - left. split; [done | by apply scan_all_nomatch].
  - right.
    destruct (last_match_split (entry_matches self) catalogs Hsome)
      as (pre & config & post & -> & Hm & Hpost & _).
    destruct (scan_all_last self pre post config Hm Hpost)
      as (before & cmd & after & Hcmds & Hc & Hb & Hfold).
    by exists pre, config, post, before, cmd, after.
Qed.

Lemma entry_matches_name (self : request) (config : catalog) :
  entry_matches self config = true ->
  str_eq (config_name_of config) (_config_name self) = true.
Proof. unfold entry_matches. by intros [? _]%andb_true_iff. Qed.

Lemma config_name_of_nonempty (config : catalog) : config_name_of config <> "".
Proof.
  unfold config_name_of.
  by destruct (pipeline_configuration_name _) as [[|c s]|].
Qed.

(** X11: for a request that has no command yet, resolution returns normally
    exactly when some catalog matches: its effective name is the request's
    [pc] and it holds a command with the requested [name]. *)
Theorem X11_resolves_iff_some_catalog_matches (self_str : string)
    (self : request) (catalogs : list catalog) (tr : trace) :
  _resolved_command self = None ->
  (exists self' tr',
     execute_with_context self_str self catalogs tr = (Ok self', tr')) <->
  Exists (fun c => entry_matches self c = true) catalogs.
Proof.
  intros Hnone. split.
  - intros (self' & tr' & Hrun).
    destruct (Forall_or_Exists_match self catalogs) as [Hno|Hsome].
    + by rewrite (resolve_fails_unresolved _ _ _ _ Hnone Hno) in Hrun.
    + by apply filter_nonempty_Exists.
  - intros Hex. apply Exists_filter_nonempty in Hex.
    destruct (scan_all_cases self catalogs)
      as [[Hno _]|(pre & config & post & before & cmd & after & -> & Hm & _ &
                   _ & _ & _ & Hfold)].
    + exfalso. apply filter_nil_Forall_inv in Hex; [done|done].
    + eexists _, _. by apply resolve_binds.
Qed.

Lemma X11_resolves_iff_some_catalog_matches_witness :
  let catalogs := [catalog_of None (Some [nuke false (Returned PNone)])] in
  _resolved_command my_tasks_request = None /\
  exists self' tr',
    execute_with_context "request" my_tasks_request catalogs [] =
      (Ok self', tr').
Proof.
  intros catalogs. split; [reflexivity|].
  apply (X11_resolves_iff_some_catalog_matches "request" my_tasks_request
           catalogs [] eq_refl).
  left. reflexivity.
Defined.

(** X12: when resolution of a request that has no command yet returns, the
    command it bound stands in one of the catalogs passed in, under an
    effective name equal to the request's [pc], and has the requested system
    name; nothing else of the request has changed, and exactly one daemon
    thread was started, on the request as resolved. *)
Theorem X12_resolved_command_comes_from_the_catalogs (self_str : string)
    (self : request) (catalogs : list catalog) (tr : trace)
    (self' : request) (tr' : trace) :
  _resolved_command self = None ->
  execute_with_context self_str self catalogs tr = (Ok self', tr') ->
  exists config cmd,
    In config catalogs /\ In cmd (commands_of config) /\
    str_eq (config_name_of config) (_config_name self) = true /\
    str_eq (system_name cmd) (_command_name self) = true /\
    self' = set_resolved_command self cmd /\
    tr' = tr ++ [EvThreadStart true self'].
Proof.
  intros Hnone Hrun.
  destruct (scan_all_cases self catalogs)
    as [[Hno _]|(pre & config & post & before & cmd & after & -> & Hm & _ &
                 Hcmds & Hc & _ & Hfold)].
  - by rewrite (resolve_fails_unresolved _ _ _ _ Hnone Hno) in Hrun.
  - rewrite (resolve_binds _ _ _ _ _ Hfold) in Hrun. inversion Hrun; subst.
    exists config, cmd. split; [apply in_elt|].
    split; [rewrite Hcmds; apply in_elt|].
    split; [by apply entry_matches_name|]. done.
Qed.

Lemma X12_resolved_command_comes_from_the_catalogs_witness :
  let cmd := nuke false (Returned PNone) in
  let catalogs := [catalog_of (Some "Dev") None; catalog_of None (Some [cmd])] in
  let self' := set_resolved_command my_tasks_request cmd in
  execute_with_context "request" my_tasks_request catalogs [] =
    (Ok self', [EvThreadStart true self']) /\
  exists config cmd',
    In config catalogs /\ In cmd' (commands_of config) /\
    str_eq (config_name_of config) (_config_name my_tasks_request) = true /\
    str_eq (system_name cmd') (_command_name my_tasks_request) = true /\
    self' = set_resolved_command my_tasks_request cmd' /\
    [EvThreadStart true self'] = [] ++ [EvThreadStart true self'].
Proof.
  intros cmd catalogs self'. split; [reflexivity|].
  exact (X12_resolved_command_comes_from_the_catalogs "request"
           my_tasks_request catalogs [] self' [EvThreadStart true self']
           eq_refl eq_refl).
Defined.

(** X13: the resolved command is never cleared.  A request that already has
    a command, run against catalogs none of which matches, raises nothing:
    it starts a thread on the command it had. *)
Theorem X13_earlier_command_survives_a_mismatch (self_str : string)
    (self : request) (cmd : command) (catalogs : list catalog) (tr : trace) :
  _resolved_command self = Some cmd ->
  Forall (fun c => entry_matches self c = false) catalogs ->
  execute_with_context self_str self catalogs tr =
    (Ok self, tr ++ [EvThreadStart true self]).
Proof.
  intros Hcmd Hno. unfold execute_with_context.
  by rewrite (scan_all_nomatch _ _ Hno), Hcmd.
Qed.

Lemma X13_earlier_command_survives_a_mismatch_witness :
  let cmd := nuke false (Returned PNone) in
  let self := set_resolved_command my_tasks_request cmd in
  let catalogs := [catalog_of (Some "Dev") (Some [cmd]); catalog_of None None] in
  _resolved_command self = Some cmd /\
  Forall (fun c => entry_matches self c = false) catalogs /\
  execute_with_context "request" self catalogs [] =
    (Ok self, [EvThreadStart true self]).
Proof.
  intros cmd self catalogs.
  assert (Hno : Forall (fun c => entry_matches self c = false) catalogs).
  { repeat constructor. }
  split; [reflexivity|]. split; [exact Hno|].
  exact (X13_earlier_command_survives_a_mismatch "request" self cmd catalogs
           [] eq_refl Hno).
Defined.

Lemma scan_filtered (self : request) (catalogs : list catalog) :
  forall cur,
    same_target cur self ->
    fold_left scan_config catalogs cur =
    fold_left scan_config (List.filter (entry_matches self) catalogs) cur.
Proof.
  induction catalogs as [|c cs IH]; intros cur Ht; simpl; [done|].
  destruct (entry_matches self c) eqn:E; simpl.
  - apply IH. destruct (scan_config_target cur c) as (?&?&?&?&?&?&?).
    destruct Ht as (?&?&?&?&?&?&?). repeat split; congruence.
  - rewrite scan_config_nomatch; [by apply IH|].
    by rewrite (same_target_entry _ _ c Ht).
Qed.

(** X14: catalogs that do not match are of no consequence: resolution over
    a list of catalogs does exactly what it does over the matching ones
    alone, in the same order.  In particular a catalog that failed to load
    (commands null) or that is empty can be dropped. *)
Theorem X14_only_matching_catalogs_count (self_str : string)
    (self : request) (catalogs : list catalog) (tr : trace) :
  execute_with_context self_str self catalogs tr =
  execute_with_context self_str self
    (List.filter (entry_matches self) catalogs) tr.
Proof.
  unfold execute_with_context.
  by rewrite (scan_filtered self catalogs self (same_target_refl self)).
Qed.

(** X15: the effective name of a catalog is never empty, and only a string
    compares equal to it.  So a request whose [pc] is the empty string, or
    is no string at all, resolves against no catalog whatever. *)
Theorem X15_empty_or_non_string_pc_never_resolves (self_str : string)
    (self : request) (catalogs : list catalog) (tr : trace) :
  _resolved_command self = None ->
  (_config_name self = PStr "" \/ forall s, _config_name self <> PStr s) ->
  execute_with_context self_str self catalogs tr =
    (Err (RuntimeError (self_str +:+ ": Configuration mismatch!")), tr).
Proof.
  intros Hnone Hpc. apply resolve_fails_unresolved; [done|].
  apply Forall_forall. intros c _. unfold entry_matches.
  assert (str_eq (config_name_of c) (_config_name self) = false) as ->; [|done].
  destruct Hpc as [->|Hpc].
  - cbn [str_eq]. apply String.eqb_neq, config_name_of_nonempty.
  - destruct (_config_name self) as [| | |s| |]; try done. by destruct (Hpc s).
Qed.

Lemma X15_empty_or_non_string_pc_never_resolves_witness :
  let self :=
    {| _resolved_command := None;
       _command_name := PStr "nuke_9.0v6";
       _command_title := PStr "Nuke 9.0v6";
       _config_name := PStr "";
       _entity_type := PStr "Task";
       _entity_id := PInt 5757;
       _entity_ids := PList [PInt 5757];
       _project_id := PInt 87 |} in
  let catalogs :=
    [catalog_of (Some "") (Some [nuke false (Returned PNone)]);
     catalog_of None (Some [nuke false (Returned PNone)])] in
  _resolved_command self = None /\
  execute_with_context "request" self catalogs [] =
    (Err (RuntimeError "request: Configuration mismatch!"), []).
Proof.
  intros self catalogs. split; [reflexivity|].
  exact (X15_empty_or_non_string_pc_never_resolves "request" self catalogs []
           eq_refl (or_introl eq_refl)).
Defined.

(** X16: as soon as one catalog matches, resolution binds the first matching
    command of the last matching catalog, whatever the request had bound
    before; with a single matching catalog that is its first matching
    command. *)
Theorem X16_some_match_binds_last_catalog_first_command (self_str : string)
    (self : request) (catalogs : list catalog) (tr : trace) :
  Exists (fun c => entry_matches self c = true) catalogs ->
  exists pre config post before cmd after,
    catalogs = pre ++ config :: post /\
    entry_matches self config = true /\
    Forall (fun c => entry_matches self c = false) post /\
    commands_of config = before ++ cmd :: after /\
    str_eq (system_name cmd) (_command_name self) = true /\
    Forall (fun c => str_eq (system_name c) (_command_name self) = false)
      before /\
    execute_with_context self_str self catalogs tr =
      (Ok (set_resolved_command self cmd),
       tr ++ [EvThreadStart true (set_resolved_command self cmd)]).
Proof.
  intros Hex. apply Exists_filter_nonempty in Hex.
  destruct (scan_all_cases self catalogs)
    as [[Hno _]|(pre & config & post & before & cmd & after & E & Hm & Hpost &
                 Hcmds & Hc & Hb & Hfold)].
  - exfalso. by apply (filter_nil_Forall_inv _ _ Hex).
  - exists pre, config, post, before, cmd, after.
    do 6 (split; [done|]). by apply resolve_binds.
Qed.

Lemma X16_some_match_binds_last_catalog_first_command_witness :
  let first := nuke false (Returned (PStr "first")) in
  let second := nuke true (Returned (PStr "second")) in
  let stale := set_resolved_command my_tasks_request second in
  let catalogs := [catalog_of (Some "Primary") (Some [first; second])] in
  Exists (fun c => entry_matches stale c = true) catalogs /\
  exists pre config post before cmd after,
    catalogs = pre ++ config :: post /\
    entry_matches stale config = true /\
    Forall (fun c => entry_matches stale c = false) post /\
    commands_of config = before ++ cmd :: after /\
    str_eq (system_name cmd) (_command_name stale) = true /\
    Forall (fun c => str_eq (system_name c) (_command_name stale) = false)
      before /\
    execute_with_context "request" stale catalogs [] =
      (Ok (set_resolved_command stale cmd),
       [] ++ [EvThreadStart true (set_resolved_command stale cmd)]).
Proof.
  intros first second stale catalogs.
  assert (Hex : Exists (fun c => entry_matches stale c = true) catalogs).
  { left. reflexivity. }
  split; [exact Hex|].
  exact (X16_some_match_binds_last_catalog_first_command "request" stale
           catalogs [] Hex).
Defined.

(** X17: resolution changes nothing that the read-only properties show: the
    project id, the entity type and the entity id of the request it returns
    are those of the request it was given, and so is the list of entity
    ids. *)
Theorem X17_resolution_keeps_the_properties (self_str : string)
    (self : request) (catalogs : list catalog) (tr : trace)
    (self' : request) (tr' : trace) :
  execute_with_context self_str self catalogs tr = (Ok self', tr') ->
  project_id self' = project_id self /\
  entity_type self' = entity_type self /\
  entity_id self' = entity_id self /\
  _entity_ids self' = _entity_ids self /\
  requires_toolkit self' = requires_toolkit self.
Proof.
  unfold execute_with_context. intros Hrun.
  destruct (scan_all_target catalogs self) as (_ & _ & _ & Het & Hid & Hids & Hp).
  destruct (_resolved_command (fold_left scan_config catalogs self));
    [|done].
  unfold bind, emit, ret in Hrun. inversion Hrun; subst.
  unfold project_id, entity_type, entity_id. by repeat split.
Qed.

Lemma X17_resolution_keeps_the_properties_witness :
  let cmd := nuke false (Returned PNone) in
  let self' := set_resolved_command my_tasks_request cmd in
  execute_with_context "request" my_tasks_request
    [catalog_of None (Some [cmd])] [] = (Ok self', [EvThreadStart true self']) /\
  project_id self' = PInt 87 /\ entity_type self' = PStr "Task" /\
  entity_id self' = PInt 5757.
Proof.
  intros cmd self'. split; [reflexivity|].
  destruct (X17_resolution_keeps_the_properties "request" my_tasks_request
              [catalog_of None (Some [cmd])] [] self'
              [EvThreadStart true self'] eq_refl) as (Hp & Het & Hid & _).
  split; [exact Hp|]. split; [exact Het | exact Hid].
Defined.

(** * Further properties of execution *)

(** X18: what [_execute] sends follows from the outcome of the call it
    made.  When the call returns, it returns normally after one reply of
    status 0 that carries the return value and no error.  When the call
    raises an [Exception], it returns normally after one reply of status 1
    that carries an error and no output.  When the call raises something
    that is no [Exception], that exception leaves [_execute] and nothing is
    replied. *)
Theorem X18_reply_follows_the_outcome (self : request) (tr : trace) :
  (forall out, (call_command self tr).1 = Returned out ->
     _execute self tr =
       (Ok tt,
        (call_command self tr).2 ++
        [EvReply {| status := 0; output := Some out; error := None |}])) /\
  (forall d, (call_command self tr).1 = Raised d ->
     exists msg,
       _execute self tr =
         (Ok tt,
          (call_command self tr).2 ++
          [EvReply {| status := 1; output := None; error := Some msg |}])) /\
  (forall d, (call_command self tr).1 = RaisedBase d ->
     _execute self tr = (Err (BaseFailure d), (call_command self tr).2)).
Proof.
  rewrite execute_answers. repeat split.
  - by intros out ->.
  - intros d ->. by eexists.
  - intros d ->. cbn [answer_to fst snd]. by rewrite app_nil_r.
Qed.

(** X19: run on a request that has no resolved command, [_execute] calls no
    command and does not raise: the failed attribute access is caught like
    any failure and answered with one reply of status 1. *)
Theorem X19_unresolved_request_is_answered_with_an_error (self : request)
    (tr : trace) :
  _resolved_command self = None ->
  exists msg,
    _execute self tr =
      (Ok tt,
       tr ++ [EvReply {| status := 1; output := None; error := Some msg |}]).
Proof.
  intros Hnone. unfold _execute, call_command, _reply_with_status, emit.
  rewrite Hnone. destruct (contains legacy_signature _); by eexists.
Qed.

Lemma X19_unresolved_request_is_answered_with_an_error_witness :
  _resolved_command my_tasks_request = None /\
  exists msg,
    _execute my_tasks_request [] =
      (Ok tt,
       [] ++ [EvReply {| status := 1; output := None; error := Some msg |}]).
Proof.
  split; [reflexivity|].
  exact (X19_unresolved_request_is_answered_with_an_error my_tasks_request []
           eq_refl).
Defined.



(** X21: from payload to command.  When the payload lists its entities as
    records and the request is resolved to a command that supports multiple
    selection, the call the thread payload makes hands the command the ids
    of the records, in order, as plain integers; and unless the command
    raises something that is no [Exception], exactly one reply follows. *)
Theorem X21_records_reach_the_command_as_ids (self_str : string)
    (conn : connection) (parameters : gmap string pyval) (tr0 tr1 : trace)
    (self : request) (catalogs : list catalog) (tr2 tr3 : trace)
    (self' : request) (cmd : command) (tr : trace)
    (d : gmap string pyval) (ds : list (gmap string pyval)) (i : Z)
    (ids : list Z) :
  __init__ self_str conn parameters tr0 = (Ok self, tr1) ->
  parameters !! "entity_ids" = Some (PList (PDict <$> d :: ds)) ->
  Forall2 (fun d i => d !! "id" = Some (PInt i)) (d :: ds) (i :: ids) ->
  execute_with_context self_str self catalogs tr2 = (Ok self', tr3) ->
  _resolved_command self' = Some cmd ->
  support_shotgun_multiple_selection cmd = true ->
  let handed := PList (PInt <$> i :: ids) in
  call_command self' tr =
    (execute_on_multiple_entities cmd true handed,
     tr ++ [EvExecuteOnMultipleEntities cmd true handed]) /\
  ((forall x, execute_on_multiple_entities cmd true handed <> RaisedBase x) ->
   exists r,
     _execute self' tr =
       (Ok tt,
        tr ++ [EvExecuteOnMultipleEntities cmd true handed; EvReply r])).
Proof.
  intros Hinit Hids HF Hrun Hcmd Hmulti handed.
  destruct (init_inv _ _ _ _ _ _ Hinit) as (ef & Hef & _ & Heids).
  rewrite (entity_fields_dicts _ _ _ _ _ Hids HF) in Hef.
  assert (ef = (PInt i, handed)) as -> by (unfold handed; congruence).
  cbn [snd] in Heids. clearbody handed. clear Hef.
  assert (Hkeep : _entity_ids self' = _entity_ids self).
  { unfold execute_with_context in Hrun.
    destruct (scan_all_target catalogs self) as (_ & _ & _ & _ & _ & H & _).
    destruct (_resolved_command (fold_left scan_config catalogs self));
      [|done].
    unfold bind, emit, ret in Hrun. by inversion Hrun; subst. }
  pose proof (call_command_resolved self' cmd tr Hcmd) as Hcall.
  rewrite Hmulti, Hkeep, Heids in Hcall.
  split; [done|]. intros Hexc.
  rewrite execute_answers, Hcall. cbn [fst snd].
  destruct (execute_on_multiple_entities cmd true handed) as [out|x|x];
    cbn [answer_to fst snd].
  - eexists. by rewrite <- app_assoc.
  - eexists. by rewrite <- app_assoc.
  - by destruct (Hexc x).
Qed.

Lemma X21_records_reach_the_command_as_ids_witness :
  let cmd := nuke true (Returned (PStr "launched")) in
  let self' := set_resolved_command my_tasks_request cmd in
  exists r,
    _execute self' [] =
      (Ok tt,
       [] ++ [EvExecuteOnMultipleEntities cmd true (PList (PInt <$> [5757]));
              EvReply r]).
Proof.
  intros cmd self'.
  refine (proj2 (X21_records_reach_the_command_as_ids "request" site_87
            my_tasks_payload [] _ my_tasks_request
            [catalog_of None (Some [cmd])] [] _ self' cmd []
            task_entity [] 5757 [] eq_refl eq_refl _ eq_refl eq_refl eq_refl) _).
  - repeat constructor.
  - intros x. discriminate.
Defined.

Lemma ids_of_records_ok (ds : list (gmap string pyval)) :
  Forall (fun d => is_Some (d !! "id")) ds ->
  exists vs, ids_of (PDict <$> ds) = Ok vs.
Proof.
  induction 1 as [|d ds [v Hv] _ [vs IH]]; [by exists []|].
  exists (v :: vs). rewrite fmap_cons. cbn [ids_of getitem_str].
  by rewrite Hv, IH.
Qed.

(** X22: a payload is accepted without any lookup as soon as it has the six
    required keys, a [project_id] that is not null, and an [entity_ids] list
    that either starts with something that is no record or consists of
    records that all have an [id]; the [project_id] property then reads the
    payload's value back. *)
Theorem X22_payload_with_project_is_accepted (self_str : string)
    (conn : connection) (parameters : gmap string pyval) (tr : trace)
    (ids v : pyval) :
  (forall k, In k required_params -> is_Some (parameters !! k)) ->
  parameters !! "entity_ids" = Some ids ->
  parameters !! "project_id" = Some v -> v <> PNone ->
  ((exists x l, ids = PList (x :: l) /\ is_dict x = false) \/
   (exists d ds, ids = PList (PDict <$> d :: ds) /\
                 Forall (fun d => is_Some (d !! "id")) (d :: ds))) ->
  exists self,
    __init__ self_str conn parameters tr = (Ok self, tr) /\
    project_id self = v.
Proof.
  intros Hall Hids Hp Hv Hshape.
  assert (Hef : exists eid eids, entity_fields parameters = Ok (eid, eids)).
  { unfold entity_fields, param. rewrite Hids.
    destruct Hshape as [(x & l & -> & Hx)|(d & ds & -> & HF)].
    - cbn [getitem_0]. rewrite Hx. by eexists _, _.
    - destruct (ids_of_records_ok _ HF) as [vs Hvs].
      unfold comprehension_ids. rewrite Hvs. rewrite fmap_cons.
      inversion HF as [|? ? [w Hw] _]; subst.
      cbn [getitem_0 is_dict getitem_str]. rewrite Hw. by eexists _, _. }
  destruct Hef as (eid & eids & Hef).
  destruct (init_returns_given_project self_str conn parameters tr eid eids v
              Hall Hef Hp Hv) as (self & Hrun & _ & _ & Hpid).
  by exists self.
Qed.

Lemma X22_payload_with_project_is_accepted_witness :
  (forall k, In k required_params -> is_Some (spreadsheet_payload !! k)) /\
  exists self,
    __init__ "request" site_87 spreadsheet_payload [] = (Ok self, []) /\
    project_id self = PInt 87.
Proof.
  assert (Hall : forall k, In k required_params ->
                           is_Some (spreadsheet_payload !! k)).
  { intros k Hk. each_key Hk. }
  split; [exact Hall|].
  refine (X22_payload_with_project_is_accepted "request" site_87
            spreadsheet_payload [] (PList [PInt 6947]) (PInt 87)
            Hall eq_refl eq_refl _ _); [discriminate|].
  left. by exists (PInt 6947), [].
Defined.
